(** * A verified model of the Binance reverse proxy (main.go)

    The proxy is one gin handler, [ProxyRequest], installed behind a CORS
    middleware by [setupRouter].  This file embeds the handler, the
    middleware and the parts of the Go libraries they call, and proves the
    behaviour of the request translation and of the response relay.  The
    two local endpoints, [HealthCheck] and [TestConnection], the
    configuration read by [main] and the helper [min] follow.

    Go strings are byte strings: they are modelled by [string], whose
    characters are the 256 values of [ascii].  Go maps are [gmap]s; a
    [range] over a map visits its entries in an order chosen by the Go
    runtime, which the model takes from its environment. *)

From Stdlib Require Import Ascii NArith.
From Stdlib Require String.
From stdpp Require Import gmap strings list fin_maps pretty sorting.

(** ** Bytes *)

Definition byte_between (lo hi : N) (c : ascii) : bool :=
  ((lo <=? N_of_ascii c) && (N_of_ascii c <=? hi))%N.

Definition isUpperASCII (c : ascii) : bool := byte_between 65 90 c.
Definition isLowerASCII (c : ascii) : bool := byte_between 97 122 c.
Definition isDigitASCII (c : ascii) : bool := byte_between 48 57 c.

(** [utf8.RuneSelf]: bytes below 0x80 are themselves a character. *)
Definition belowRuneSelf (c : ascii) : bool := (N_of_ascii c <? 128)%N.

(** [c + ('a' - 'A')] and [c - ('a' - 'A')] on a letter. *)
Definition lowerByte (c : ascii) : ascii :=
  if isUpperASCII c then ascii_of_N (N_of_ascii c + 32) else c.
Definition upperByte (c : ascii) : ascii :=
  if isLowerASCII c then ascii_of_N (N_of_ascii c - 32) else c.

Fixpoint forall_bytes (p : ascii → bool) (s : string) : bool :=
  match s with
  | EmptyString => true
  | String c s' => p c && forall_bytes p s'
  end.

Fixpoint map_bytes (f : ascii → ascii) (s : string) : string :=
  match s with
  | EmptyString => EmptyString
  | String c s' => String (f c) (map_bytes f s')
  end.

Definition hexDigit (n : N) : ascii :=
  ascii_of_N (if (n <? 10)%N then 48 + n else 55 + n).
Definition lowerHexDigit (n : N) : ascii :=
  ascii_of_N (if (n <? 10)%N then 48 + n else 87 + n).

(** ** The part of the Unicode tables that Go consults

    [strings.ToLower] and [strings.TrimSpace] have an ASCII fast path, which
    is modelled byte for byte, and fall back on the Unicode tables when they
    meet a byte of a multi-byte character.  The fall-backs are taken as
    given: every result below holds for any tables. *)

Class Unicode := {
  (** [strings.Map(unicode.ToLower, s)] *)
  Map_ToLower : string → string;
  (** [strings.TrimFunc(s, unicode.IsSpace)] *)
  TrimFunc_IsSpace : string → string;
  (** [strings.TrimRightFunc(s, unicode.IsSpace)] *)
  TrimRightFunc_IsSpace : string → string;
}.

(** ** Package strings *)

Module GoStrings.

Fixpoint HasPrefix (s prefix : string) {struct prefix} : bool :=
  match prefix, s with
  | EmptyString, _ => true
  | String p prefix', String c s' => Ascii.eqb p c && HasPrefix s' prefix'
  | String _ _, EmptyString => false
  end.

Fixpoint drop_bytes (n : nat) (s : string) : string :=
  match n, s with
  | S n', String _ s' => drop_bytes n' s'
  | _, _ => s
  end.

Definition TrimPrefix (s prefix : string) : string :=
  if HasPrefix s prefix then drop_bytes (String.length prefix) s else s.

(** [strings.Split(s, sep)] for a separator of one byte, the only use the
    proxy makes of it.  The result is never empty. *)
Fixpoint Split (s : string) (sep : ascii) : list string :=
  match s with
  | EmptyString => [EmptyString]
  | String c s' =>
      if Ascii.eqb c sep then EmptyString :: Split s' sep
      else match Split s' sep with
           | piece :: pieces => String c piece :: pieces
           | [] => [String c EmptyString]
           end
  end.

(** [strings.Cut(s, sep)] for a separator of one byte: the text before and
    after its first occurrence, or [s] and nothing. *)
Fixpoint Cut (s : string) (sep : ascii) : string * string :=
  match s with
  | EmptyString => (EmptyString, EmptyString)
  | String c s' =>
      if Ascii.eqb c sep then (EmptyString, s')
      else let '(before, after) := Cut s' sep in (String c before, after)
  end.

Definition ToLower `{Unicode} (s : string) : string :=
  if forall_bytes belowRuneSelf s then map_bytes lowerByte s
  else Map_ToLower s.

(** The table [asciiSpace]: tab, line feed, vertical tab, form feed,
    carriage return, space. *)
Definition asciiSpace (c : ascii) : bool :=
  byte_between 9 13 c || (N_of_ascii c =? 32)%N.

(** The second loop of [TrimSpace], on the reversed remainder: [rev_s]
    holds [s[start:stop]] backwards. *)
Fixpoint trimRightScan `{Unicode} (rev_s : string) : string :=
  match rev_s with
  | EmptyString => EmptyString
  | String c rest =>
      if negb (belowRuneSelf c) then
        TrimRightFunc_IsSpace (String.rev rev_s)
      else if asciiSpace c then trimRightScan rest
      else String.rev rev_s
  end.

Fixpoint TrimSpace `{Unicode} (s : string) : string :=
  match s with
  | EmptyString => EmptyString
  | String c s' =>
      if negb (belowRuneSelf c) then TrimFunc_IsSpace s
      else if asciiSpace c then TrimSpace s'
      else trimRightScan (String.rev s)
  end.

End GoStrings.

(** ** Package net/textproto: canonical header names *)

Module MIME.

(** [validHeaderFieldByte]: the token characters of RFC 7230. *)
Definition validHeaderFieldByte (c : ascii) : bool :=
  isUpperASCII c || isLowerASCII c || isDigitASCII c ||
  bool_decide (c ∈ String.list_ascii_of_string "!#$%&'*+-.^_`|~").

(** The case loop of [canonicalMIMEHeaderKey]: upper case for the first
    letter and after each dash, lower case elsewhere. *)
Fixpoint canonicalCase (upper : bool) (s : string) : string :=
  match s with
  | EmptyString => EmptyString
  | String c s' =>
      let c' := if upper then upperByte c else lowerByte c in
      String c' (canonicalCase (Ascii.eqb c' "-") s')
  end.

(** A name with a byte outside the token characters is returned as it
    is. *)
Definition CanonicalMIMEHeaderKey (s : string) : string :=
  if forall_bytes validHeaderFieldByte s then canonicalCase true s else s.

End MIME.

(** ** Package net/http: the header map *)

Module HTTP.

Abbreviation Header := (gmap string (list string)).

Definition Get (key : string) (h : Header) : string :=
  match h !! MIME.CanonicalMIMEHeaderKey key with
  | Some (v :: _) => v
  | _ => ""
  end.

Definition Set_ (key value : string) (h : Header) : Header :=
  <[MIME.CanonicalMIMEHeaderKey key := [value]]> h.

Definition Add (key value : string) (h : Header) : Header :=
  let key := MIME.CanonicalMIMEHeaderKey key in
  <[key := default [] (h !! key) ++ [value]]> h.

Definition Del (key : string) (h : Header) : Header :=
  delete (MIME.CanonicalMIMEHeaderKey key) h.

Definition StatusOK : Z := 200.
Definition StatusNotFound : Z := 404.
Definition StatusInternalServerError : Z := 500.
Definition StatusBadGateway : Z := 502.
Definition StatusServiceUnavailable : Z := 503.

End HTTP.

(** ** Package net/url: query values *)

Module URL.

Abbreviation Values := (gmap string (list string)).

(** [Values.Set] replaces every value of the key by one. *)
Definition Set_ (key value : string) (v : Values) : Values :=
  <[key := [value]]> v.

(** [shouldEscape(c, encodeQueryComponent)]: letters, digits and [-_.~]
    are kept. *)
Definition shouldEscape (c : ascii) : bool :=
  negb (isUpperASCII c || isLowerASCII c || isDigitASCII c ||
        bool_decide (c ∈ String.list_ascii_of_string "-_.~")).

Definition escapeByte (c : ascii) : string :=
  if Ascii.eqb c " " then "+"
  else if shouldEscape c then
    String "%" (String (hexDigit (N_of_ascii c / 16))
               (String (hexDigit (N_of_ascii c mod 16)) ""))
  else String c "".

Fixpoint QueryEscape (s : string) : string :=
  match s with
  | EmptyString => EmptyString
  | String c s' => escapeByte c +:+ QueryEscape s'
  end.

(** The keys in the order of [slices.Sort]: bytewise. *)
Definition sortedKeys (v : Values) : list string :=
  merge_sort String.le (elements (dom v)).

(** The [key=value] pairs in the order [Encode] writes them. *)
Definition pairs (v : Values) : list (string * string) :=
  k ← sortedKeys v; (λ x, (k, x)) <$> default [] (v !! k).

Definition Encode (v : Values) : string :=
  String.concat "&"
    ((λ kv, QueryEscape kv.1 +:+ "=" +:+ QueryEscape kv.2) <$> pairs v).

(** [ishex] and [unhex] *)
Definition unhex (c : ascii) : option N :=
  if isDigitASCII c then Some (N_of_ascii c - 48)%N
  else if byte_between 97 102 c then Some (N_of_ascii c - 87)%N
  else if byte_between 65 70 c then Some (N_of_ascii c - 55)%N
  else None.

(** [QueryUnescape]: [+] is a space, [%XX] a byte; nothing when a [%] is
    not followed by two hexadecimal digits. *)
Fixpoint QueryUnescape (s : string) : option string :=
  match s with
  | EmptyString => Some EmptyString
  | String c s' =>
      if Ascii.eqb c "%" then
        match s' with
        | String h1 (String h2 rest) =>
            match unhex h1, unhex h2 with
            | Some high, Some low =>
                String (ascii_of_N (16 * high + low)) <$> QueryUnescape rest
            | _, _ => None
            end
        | _ => None
        end
      else if Ascii.eqb c "+" then String " " <$> QueryUnescape s'
      else String c <$> QueryUnescape s'
  end.

(** One [key=value] piece of a query, as [parseQuery] reads it; nothing for
    a piece it skips. *)
Definition parsePiece (piece : string) : option (string * string) :=
  if negb (forall_bytes (λ c, negb (Ascii.eqb c ";")) piece) then None
  else if String.eqb piece "" then None
  else
    let '(key, value) := GoStrings.Cut piece "=" in
    key ← QueryUnescape key; value ← QueryUnescape value; Some (key, value).

(** [ParseQuery], what the receiver of the URL does with its query string:
    the pairs in the order they are appended to the [Values]. *)
Definition ParseQuery (query : string) : list (string * string) :=
  omap parsePiece (GoStrings.Split query "&").

(** [URL.Query()]: the values of a raw query, each pair appended to the
    values of its key; the pairs [parseQuery] cannot read are dropped. *)
Definition Query (rawQuery : string) : Values :=
  foldl (λ m kv, <[kv.1 := default [] (m !! kv.1) ++ [kv.2]]> m) ∅
    (ParseQuery rawQuery).

End URL.

(** ** Package encoding/json: marshalling a slice of strings *)

Module JSON.

Definition isContinuation (c : ascii) : bool := byte_between 128 191 c.

(** The length of the UTF-8 sequence at the head of [s], which starts with
    a byte of 0x80 or more; 0 when the bytes are not a valid sequence
    ([utf8.DecodeRuneInString] then answers [RuneError] and width 1). *)
Definition runeLen (s : string) : nat :=
  match s with
  | String c0 (String c1 rest) =>
      let two := byte_between 194 223 c0 && isContinuation c1 in
      if two then 2%nat else
      match rest with
      | String c2 rest' =>
          let lead3 :=
            (Ascii.eqb c0 (ascii_of_N 224) && byte_between 160 191 c1) ||
            ((byte_between 225 236 c0 || byte_between 238 239 c0)
               && isContinuation c1) ||
            (Ascii.eqb c0 (ascii_of_N 237) && byte_between 128 159 c1) in
          if lead3 && isContinuation c2 then 3%nat else
          match rest' with
          | String c3 _ =>
              let lead4 :=
                (Ascii.eqb c0 (ascii_of_N 240) && byte_between 144 191 c1) ||
                (byte_between 241 243 c0 && isContinuation c1) ||
                (Ascii.eqb c0 (ascii_of_N 244) && byte_between 128 143 c1) in
              if lead4 && isContinuation c2 && isContinuation c3
              then 4%nat else 0%nat
          | EmptyString => 0%nat
          end
      | EmptyString => 0%nat
      end
  | _ => 0%nat
  end.

(** [htmlSafeSet]: the bytes written as they are, every byte from space
    up except the quote, the backslash and the HTML characters. *)
Definition htmlSafe (c : ascii) : bool :=
  byte_between 32 127 c &&
  negb (bool_decide (c ∈ String.list_ascii_of_string "\<>&") ||
        Ascii.eqb c (ascii_of_N 34)).

Definition escapeASCII (c : ascii) : string :=
  if Ascii.eqb c "\" || Ascii.eqb c (ascii_of_N 34) then String "\" (String c "")
  else if Ascii.eqb c (ascii_of_N 8) then "\b"
  else if Ascii.eqb c (ascii_of_N 12) then "\f"
  else if Ascii.eqb c (ascii_of_N 10) then "\n"
  else if Ascii.eqb c (ascii_of_N 13) then "\r"
  else if Ascii.eqb c (ascii_of_N 9) then "\t"
  else "\u00" +:+ String (lowerHexDigit (N_of_ascii c / 16))
                   (String (lowerHexDigit (N_of_ascii c mod 16)) "").

Definition take_bytes (n : nat) (s : string) : string :=
  String.substring 0 n s.

(** The loop of [appendString] with HTML escaping on.  [skip] counts the
    bytes still to pass over of a multi-byte character already written. *)
Fixpoint escapeString (skip : nat) (s : string) : string :=
  match s with
  | EmptyString => EmptyString
  | String c s' =>
      match skip with
      | S skip' => escapeString skip' s'
      | O =>
          if belowRuneSelf c then
            (if htmlSafe c then String c "" else escapeASCII c)
              +:+ escapeString 0 s'
          else
            match runeLen s with
            | O => "\ufffd" +:+ escapeString 0 s'
            | S size' =>
                let rune := take_bytes (S size') s in
                let line_separator :=
                  String (ascii_of_N 226) (String (ascii_of_N 128)
                    (String (ascii_of_N 168) "")) in
                let paragraph_separator :=
                  String (ascii_of_N 226) (String (ascii_of_N 128)
                    (String (ascii_of_N 169) "")) in
                (if String.eqb rune line_separator then "\u2028"
                 else if String.eqb rune paragraph_separator then "\u2029"
                 else rune)
                  +:+ escapeString size' s'
            end
      end
  end.

Definition quote (s : string) : string :=
  String (ascii_of_N 34)
    (escapeString 0 s +:+ String (ascii_of_N 34) "").

(** The text of a JSON array of strings. *)
Definition stringArray (l : list string) : string :=
  "[" +:+ String.concat "," (quote <$> l) +:+ "]".

(** [json.Marshal] of a non-nil [[]string]; it has no failing case. *)
Definition Marshal (l : list string) : string + string :=
  inl (stringArray l).

End JSON.

(** ** The values that flow through one request *)

Abbreviation bytes := (list Byte.byte).

(** The request the web server hands to the handler: [c.Request], with
    [URL.Path] already decoded and [URL.Query()] already parsed. *)
Record InboundRequest := {
  Method : string;
  Path : string;
  Query : URL.Values;
  Header : HTTP.Header;
  Body : bytes;
}.

(** The request given to [client.Do]: the arguments of [http.NewRequest]
    and the header map filled afterwards. *)
Record OutboundRequest := {
  reqMethod : string;
  reqURL : string;
  reqHeader : HTTP.Header;
  reqBody : bytes;
}.

(** What [client.Do] returns on success.  [respBody] is the outcome of
    [io.ReadAll(resp.Body)]: the bytes, or the text of the read error. *)
Record UpstreamResponse := {
  StatusCode : Z;
  respHeader : HTTP.Header;
  respBody : bytes + string;
}.

(** ** The environment of the handler

    The Go runtime and the network decide what follows; the handler is
    verified for every choice of them.  An [error] is modelled by its
    text, what [%v] prints. *)

Inductive RangeSite := RequestHeaders | ResponseHeaders.

Class Environment := {
  (** the order in which [for key, values := range h] visits a header map,
      at each of the two loops of the handler *)
  range : RangeSite → HTTP.Header → list (string * list string);
  range_Permutation : ∀ site h, range site h ≡ₚ map_to_list h;
  (** [json.Marshal] of a [[]string] *)
  json_Marshal : list string → string + string;
  (** [json.Unmarshal(b, &v) == nil] *)
  json_Unmarshal_ok : bytes → bool;
  (** [gzip.NewReader(bytes.NewReader(b))] and [io.ReadAll] of its reader *)
  gzipReader : Type;
  gzip_NewReader : bytes → gzipReader + string;
  io_ReadAll : gzipReader → bytes + string;
  (** the error of [http.NewRequest(method, url, body)], if any *)
  http_NewRequest : string → string → option string;
  (** one round trip to the upstream *)
  client_Do : OutboundRequest → UpstreamResponse + string;
}.

(** ** The gin context *)

Module Gin.

Inductive JValue :=
| JNumber (n : Z)
| JString (s : string).

(** [gin.H] *)
Abbreviation H := (gmap string JValue).

(** What the handler gave the framework to send as the body. *)
Inductive Rendered :=
| Nothing
| Bytes (data : bytes)
| JSONObject (obj : H).

Record Context := {
  Request : InboundRequest;
  Writer_Header : HTTP.Header;
  Writer_Status : Z;
  Writer_Body : Rendered;
  IsAborted : bool;
  (** the round trips to the upstream made while serving the request,
      oldest first *)
  Dispatched : list OutboundRequest;
}.

(** The context the engine allocates for a request: status 200, nothing
    written. *)
Definition newContext (r : InboundRequest) : Context :=
  {| Request := r; Writer_Header := ∅; Writer_Status := HTTP.StatusOK;
     Writer_Body := Nothing; IsAborted := false; Dispatched := [] |}.

(** [serveError(c, http.StatusNotFound, ...)]: when no route matches, the
    engine sets the status to 404 and runs the handlers of [NoRoute]. *)
Definition noRouteContext (r : InboundRequest) : Context :=
  {| Request := r; Writer_Header := ∅; Writer_Status := HTTP.StatusNotFound;
     Writer_Body := Nothing; IsAborted := false; Dispatched := [] |}.

Definition withHeader (f : HTTP.Header → HTTP.Header) (c : Context) : Context :=
  {| Request := Request c; Writer_Header := f (Writer_Header c);
     Writer_Status := Writer_Status c; Writer_Body := Writer_Body c;
     IsAborted := IsAborted c; Dispatched := Dispatched c |}.

(** [c.Header(key, value)]: [Set], or [Del] when the value is empty. *)
Definition Header (key value : string) (c : Context) : Context :=
  if String.eqb value "" then withHeader (HTTP.Del key) c
  else withHeader (HTTP.Set_ key value) c.

(** [c.Status(code)]: the writer keeps its status unless the code is
    positive. *)
Definition Status (code : Z) (c : Context) : Context :=
  if (0 <? code)%Z then
    {| Request := Request c; Writer_Header := Writer_Header c;
       Writer_Status := code; Writer_Body := Writer_Body c;
       IsAborted := IsAborted c; Dispatched := Dispatched c |}
  else c.

Definition Abort (c : Context) : Context :=
  {| Request := Request c; Writer_Header := Writer_Header c;
     Writer_Status := Writer_Status c; Writer_Body := Writer_Body c;
     IsAborted := true; Dispatched := Dispatched c |}.

Definition AbortWithStatus (code : Z) (c : Context) : Context :=
  Abort (Status code c).

(** [writeContentType]: only when the header has none yet. *)
Definition writeContentType (value : string) (h : HTTP.Header) : HTTP.Header :=
  match h !! "Content-Type" with
  | Some (_ :: _) => h
  | _ => <["Content-Type" := [value]]> h
  end.

Definition render (code : Z) (contentType : string) (body : Rendered)
    (c : Context) : Context :=
  let c := withHeader (writeContentType contentType) (Status code c) in
  {| Request := Request c; Writer_Header := Writer_Header c;
     Writer_Status := Writer_Status c; Writer_Body := body;
     IsAborted := IsAborted c; Dispatched := Dispatched c |}.

(** [c.JSON(code, obj)] *)
Definition JSON (code : Z) (obj : H) : Context → Context :=
  render code "application/json; charset=utf-8" (JSONObject obj).

(** [c.Data(code, contentType, data)] *)
Definition Data (code : Z) (contentType : string) (data : bytes) :
    Context → Context :=
  render code contentType (Bytes data).

(** One more round trip recorded. *)
Definition dispatched (req : OutboundRequest) (c : Context) : Context :=
  {| Request := Request c; Writer_Header := Writer_Header c;
     Writer_Status := Writer_Status c; Writer_Body := Writer_Body c;
     IsAborted := IsAborted c; Dispatched := Dispatched c ++ [req] |}.

End Gin.

(** ** main.go *)

Record ProxyServer := { binanceURL : string }.

Definition binanceAPIBaseURL : string := "https://api.binance.com/api/v3".

Definition NewProxyServer : ProxyServer := {| binanceURL := binanceAPIBaseURL |}.

Section Proxy.
Context `{!Unicode, !Environment}.
Import GoStrings.

(** *** Request translation *)

(** Lines 72-82: the [/api] prefix is removed, then a leading slash is
    ensured. *)
Definition normalizePath (path : string) : string :=
  let path := if HasPrefix path "/api" then TrimPrefix path "/api" else path in
  if negb (HasPrefix path "/") then "/" +:+ path else path.

(** Lines 99-101: [for i := range symbolsList], each element trimmed in
    place. *)
Definition trimInPlace (symbolsList : list string) : list string :=
  foldl (λ l i, match l !! i with
                | Some s => <[i := TrimSpace s]> l
                | None => l
                end)
    symbolsList (seq 0 (length symbolsList)).

(** Lines 88-112. *)
Definition normalizeSymbols (queryParams : URL.Values) : URL.Values :=
  match queryParams !! "symbols" with
  | Some (symbolsValue :: _) =>
      if negb (HasPrefix symbolsValue "[") then
        let symbolsList := trimInPlace (Split symbolsValue ",") in
        match json_Marshal symbolsList with
        | inl symbolsJSON => URL.Set_ "symbols" symbolsJSON queryParams
        | inr _ => queryParams
        end
      else queryParams
  | _ => queryParams
  end.

(** Lines 85-119: the URL given to [http.NewRequest]. *)
Definition targetURL (p : ProxyServer) (r : InboundRequest) : string :=
  let targetURL := binanceURL p +:+ normalizePath (Path r) in
  let queryParams := normalizeSymbols (Query r) in
  if bool_decide (0 < size queryParams) then
    targetURL +:+ "?" +:+ URL.Encode queryParams
  else targetURL.

(** Lines 142-156, the body of the loop over the inbound headers. *)
Definition copyRequestHeader (h : HTTP.Header) (entry : string * list string) :
    HTTP.Header :=
  let '(key, values) := entry in
  let keyLower := ToLower key in
  if String.eqb keyLower "host" || String.eqb keyLower "connection" ||
     String.eqb keyLower "keep-alive" then h
  else if String.eqb keyLower "accept-encoding" then
    HTTP.Set_ "Accept-Encoding" "gzip, deflate" h
  else foldl (λ h value, HTTP.Add key value h) h values.

(** Lines 159-161. *)
Definition ensureUserAgent (h : HTTP.Header) : HTTP.Header :=
  if String.eqb (HTTP.Get "User-Agent" h) "" then
    HTTP.Set_ "User-Agent" "Binance-Proxy/1.0" h
  else h.

(** The header map of the outbound request: empty after
    [http.NewRequest], then lines 142-161. *)
Definition upstreamHeader (r : InboundRequest) : HTTP.Header :=
  ensureUserAgent (foldl copyRequestHeader ∅ (range RequestHeaders (Header r))).

Definition upstreamRequest (p : ProxyServer) (r : InboundRequest) :
    OutboundRequest :=
  {| reqMethod := Method r; reqURL := targetURL p r;
     reqHeader := upstreamHeader r; reqBody := Body r |}.

(** *** Response relay *)

(** Lines 200-215. *)
Definition bodyToSend (contentEncoding : string) (body : bytes) : bytes :=
  if String.eqb contentEncoding "gzip" then
    match gzip_NewReader body with
    | inl reader =>
        match io_ReadAll reader with
        | inl decompressed => decompressed
        | inr _ => body
        end
    | inr _ => body
    end
  else body.

(** Lines 237-250, the body of the loop over the upstream headers. *)
Definition copyResponseHeader (contentEncoding : string) (c : Gin.Context)
    (entry : string * list string) : Gin.Context :=
  let '(key, values) := entry in
  let keyLower := ToLower key in
  if String.eqb keyLower "content-encoding" && String.eqb contentEncoding "gzip"
  then c
  else if String.eqb keyLower "content-length" && String.eqb contentEncoding "gzip"
  then c
  else foldl (λ c value, Gin.Header key value c) c values.

(** Lines 253-266. *)
Definition inferContentType (resp : UpstreamResponse) (body : bytes) : string :=
  let responseContentType := HTTP.Get "Content-Type" (respHeader resp) in
  if String.eqb responseContentType "" then
    if bool_decide (0 < length body) then
      if json_Unmarshal_ok body then "application/json"
      else "text/plain; charset=utf-8"
    else "application/json"
  else responseContentType.

(** Lines 192-280: the response of the upstream, once read, is relayed.
    The block of lines 217-234 only prepares text for a log line that is
    commented out. *)
Definition relay (resp : UpstreamResponse) (body : bytes) (c : Gin.Context) :
    Gin.Context :=
  let contentEncoding := HTTP.Get "Content-Encoding" (respHeader resp) in
  let bodyToSend := bodyToSend contentEncoding body in
  let c := foldl (copyResponseHeader contentEncoding) c
             (range ResponseHeaders (respHeader resp)) in
  let responseContentType := inferContentType resp bodyToSend in
  let c := Gin.Header "Content-Type" responseContentType c in
  let c := Gin.Header "Access-Control-Allow-Origin" "*" c in
  let c := Gin.Header "Access-Control-Allow-Methods"
             "GET, POST, PUT, DELETE, OPTIONS" c in
  let c := Gin.Header "Access-Control-Allow-Headers"
             "Content-Type, Authorization" c in
  let c :=
    if String.eqb contentEncoding "gzip" ||
       String.eqb (HTTP.Get "Content-Length" (Gin.Writer_Header c)) ""
    then Gin.Header "Content-Length" (pretty (length bodyToSend)) c
    else c in
  Gin.Data (StatusCode resp) responseContentType bodyToSend c.

(** The three-field object of the proxy's own errors. *)
Definition errorBody (code : Z) (msg message : string) : Gin.H :=
  <["code" := Gin.JNumber code]>
    (<["msg" := Gin.JString msg]> (<["message" := Gin.JString message]> ∅)).

(** *** The handler *)

Definition ProxyRequest (p : ProxyServer) (c : Gin.Context) : Gin.Context :=
  if String.eqb (Method (Gin.Request c)) "OPTIONS" then
    let c := Gin.Header "Access-Control-Allow-Origin" "*" c in
    let c := Gin.Header "Access-Control-Allow-Methods"
               "GET, POST, PUT, DELETE, OPTIONS" c in
    let c := Gin.Header "Access-Control-Allow-Headers"
               "Content-Type, Authorization" c in
    let c := Gin.Header "Access-Control-Max-Age" "3600" c in
    Gin.Status HTTP.StatusOK c
  else
    match http_NewRequest (Method (Gin.Request c)) (targetURL p (Gin.Request c)) with
    | Some err =>
        Gin.JSON HTTP.StatusInternalServerError
          (errorBody (-1000) ("Erro ao criar requisição: " +:+ err)
             ("Erro ao criar requisição: " +:+ err)) c
    | None =>
        let req := upstreamRequest p (Gin.Request c) in
        let c := Gin.dispatched req c in
        match client_Do req with
        | inr err =>
            Gin.JSON HTTP.StatusBadGateway
              (errorBody (-1000) ("Erro ao conectar com Binance: " +:+ err)
                 ("Erro ao conectar com Binance: " +:+ err)) c
        | inl resp =>
            match respBody resp with
            | inr err =>
                Gin.JSON HTTP.StatusInternalServerError
                  (errorBody (-1001) "Erro ao ler resposta da Binance"
                     ("Erro ao ler resposta: " +:+ err)) c
            | inl body => relay resp body c
            end
        end
    end.

(** *** The router *)

(** Lines 334-346: the middleware installed by [router.Use], in front of
    every handler, the one of [router.NoRoute] included.  [next] is the
    rest of the chain, run by [c.Next()]. *)
Definition corsMiddleware (next : Gin.Context → Gin.Context) (c : Gin.Context) : Gin.Context :=
  let c := Gin.Header "Access-Control-Allow-Origin" "*" c in
  let c := Gin.Header "Access-Control-Allow-Methods"
             "GET, POST, PUT, DELETE, OPTIONS" c in
  let c := Gin.Header "Access-Control-Allow-Headers"
             "Content-Type, Authorization" c in
  let c := Gin.Header "Access-Control-Max-Age" "3600" c in
  if String.eqb (Method (Gin.Request c)) "OPTIONS" then
    Gin.AbortWithStatus HTTP.StatusOK c
  else next c.

(** Line 404: a request that matches no route of [setupRouter] goes
    through the middleware to [ProxyRequest]. *)
Definition serveNoRoute (p : ProxyServer) (r : InboundRequest) : Gin.Context :=
  corsMiddleware (ProxyRequest p) (Gin.noRouteContext r).

End Proxy.

(** ** The host of the process

    The clock and the environment variables, read by [HealthCheck] and by
    [main]. *)

Class Host := {
  (** [time.Now().Format(time.RFC3339)] *)
  time_Now : string;
  (** [os.Getenv]: the value of a variable, empty when it is not set *)
  os_Getenv : string → string;
}.

(** ** The other endpoints of main.go *)

Section Endpoints.
Context `{!Environment, !Host}.

(** Lines 290-297. *)
Definition HealthCheck (p : ProxyServer) (c : Gin.Context) : Gin.Context :=
  Gin.JSON HTTP.StatusOK
    (<["status" := Gin.JString "ok"]>
       (<["service" := Gin.JString "binance-proxy"]>
          (<["time" := Gin.JString time_Now]>
             (<["binance_url" := Gin.JString (binanceURL p)]> ∅)))) c.

(** The request [client.Get(url)] builds with [http.NewRequest]: no header,
    no body. *)
Definition getRequest (url : string) : OutboundRequest :=
  {| reqMethod := "GET"; reqURL := url; reqHeader := ∅; reqBody := [] |}.

(** [client.Get(url)]: the error of [http.NewRequest], or the outcome of
    [client.Do], the round trip recorded. *)
Definition client_Get (url : string) (c : Gin.Context) :
    Gin.Context * (UpstreamResponse + string) :=
  match http_NewRequest "GET" url with
  | Some err => (c, inr err)
  | None => (Gin.dispatched (getRequest url) c, client_Do (getRequest url))
  end.

(** Lines 307-326.  The body of the response is closed, not read. *)
Definition TestConnection (p : ProxyServer) (c : Gin.Context) : Gin.Context :=
  let testURL := binanceURL p +:+ "/ping" in
  let '(c, result) := client_Get testURL c in
  match result with
  | inr err =>
      Gin.JSON HTTP.StatusServiceUnavailable
        (<["status" := Gin.JString "error"]>
           (<["message" :=
                Gin.JString ("Erro ao conectar com Binance: " +:+ err)]> ∅)) c
  | inl resp =>
      Gin.JSON HTTP.StatusOK
        (<["status" := Gin.JString "ok"]>
           (<["binance_url" := Gin.JString (binanceURL p)]>
              (<["http_status" := Gin.JNumber (StatusCode resp)]>
                 (<["message" :=
                      Gin.JString "Conexão com Binance estabelecida com sucesso"]>
                    ∅)))) c
  end.

(** Lines 349-350: the two routes of [setupRouter] with a handler of the
    proxy, each behind the middleware of [router.Use]. *)
Definition serveHealth (p : ProxyServer) (r : InboundRequest) : Gin.Context :=
  corsMiddleware (HealthCheck p) (Gin.newContext r).

Definition serveTest (p : ProxyServer) (r : InboundRequest) : Gin.Context :=
  corsMiddleware (TestConnection p) (Gin.newContext r).

End Endpoints.

(** ** The start of the process *)

Definition defaultPort : string := "8080".

(** [30 * time.Second], in nanoseconds *)
Definition readTimeout : Z := 30 * 1000000000.
Definition writeTimeout : Z := 30 * 1000000000.

(** The fields of [http.Server] that [main] sets besides the handler. *)
Record Server := {
  Addr : string;
  ReadTimeout : Z;
  WriteTimeout : Z;
}.

(** Lines 411-438: what [main] builds before it listens, the proxy it hands
    to [setupRouter] and the server. *)
Definition main `{!Host} : ProxyServer * Server :=
  let port := os_Getenv "PORT" in
  let port := if String.eqb port "" then defaultPort else port in
  let binanceURL := os_Getenv "BINANCE_API_URL" in
  let binanceURL :=
    if String.eqb binanceURL "" then binanceAPIBaseURL else binanceURL in
  ({| binanceURL := binanceURL |},
   {| Addr := ":" +:+ port; ReadTimeout := readTimeout;
      WriteTimeout := writeTimeout |}).

(** Lines 28-33, on Go's [int]. *)
Definition min (a b : Z) : Z := if (a <? b)%Z then a else b.

(** ** A test double of the environment

    Used to run the handler on concrete requests.  The codec reads gzip
    members made of one stored deflate block and no optional header field,
    checksum included, which is what a compressor at level 0 emits for a
    short body; the transport and the JSON validator are arguments. *)

Module Double.

Definition asciiTables : Unicode :=
  {| Map_ToLower := id; TrimFunc_IsSpace := id; TrimRightFunc_IsSpace := id |}.

Definition byte (n : N) : Byte.byte := default Byte.x00 (Byte.of_N n).

(** CRC-32 (IEEE), bit by bit. *)
Definition crc32_update (crc : N) (b : Byte.byte) : N :=
  Nat.iter 8
    (λ c, if N.odd c then N.lxor (N.shiftr c 1) 0xEDB88320%N
          else N.shiftr c 1)
    (N.lxor crc (Byte.to_N b)).

Definition crc32 (data : bytes) : N :=
  N.lxor (foldl crc32_update 0xFFFFFFFF%N data) 0xFFFFFFFF%N.

Definition littleEndian (l : bytes) : N :=
  foldr (λ b acc, Byte.to_N b + 256 * acc)%N 0%N l.

(** The ten-byte header: magic number, method 8 (deflate), no flags. *)
Definition NewReader (b : bytes) : bytes + string :=
  if bool_decide (length b < 10) then inr "unexpected EOF"
  else if bool_decide (Byte.to_N <$> take 4 b = [31; 139; 8; 0]%N)
  then inl (drop 10 b)
  else inr "gzip: invalid header".

(** One final stored block, then the CRC-32 and the length of the data. *)
Definition ReadAll (rest : bytes) : bytes + string :=
  match rest with
  | final :: l0 :: l1 :: n0 :: n1 :: tail =>
      let len := littleEndian [l0; l1] in
      if bool_decide (Byte.to_N final = 1%N ∧
                      littleEndian [n0; n1] = (65535 - len)%N) then
        let data := take (N.to_nat len) tail in
        let trailer := drop (N.to_nat len) tail in
        if bool_decide (length trailer = 8 ∧
                        littleEndian (take 4 trailer) = crc32 data ∧
                        littleEndian (drop 4 trailer) = len)
        then inl data
        else inr "gzip: invalid checksum"
      else inr "flate: corrupt input before offset 1"
  | _ => inr "unexpected EOF"
  end.

Definition environment (valid : bytes → bool)
    (upstream : OutboundRequest → UpstreamResponse + string) : Environment :=
  {| range := λ _ h, map_to_list h;
     range_Permutation := λ _ h, Permutation_refl (map_to_list h);
     json_Marshal := JSON.Marshal;
     json_Unmarshal_ok := valid;
     gzipReader := bytes;
     gzip_NewReader := NewReader;
     io_ReadAll := ReadAll;
     http_NewRequest := λ _ _, None;
     client_Do := upstream |}.

(** [gzip.compress(b'{"symbol":"BTCUSDT","price":"1"}', compresslevel=0)] *)
Definition tickerGzip : bytes :=
  byte <$> [31; 139; 8; 0; 0; 0; 0; 0; 4; 3; 1; 32; 0; 223; 255; 123; 34;
            115; 121; 109; 98; 111; 108; 34; 58; 34; 66; 84; 67; 85; 83; 68;
            84; 34; 44; 34; 112; 114; 105; 99; 101; 34; 58; 34; 49; 34; 125;
            157; 247; 5; 197; 32; 0; 0; 0]%N.

Definition tickerJSON : bytes :=
  byte <$> [123; 34; 115; 121; 109; 98; 111; 108; 34; 58; 34; 66; 84; 67;
            85; 83; 68; 84; 34; 44; 34; 112; 114; 105; 99; 101; 34; 58; 34;
            49; 34; 125]%N.

End Double.

(** ** Concrete requests and responses *)

Module Examples.

Definition text (s : string) : bytes := String.list_byte_of_string s.

(** [GET /api/klines?symbols=BTCUSDT, ETHUSDT &limit=5&limit=6] *)
Definition klines : InboundRequest :=
  {| Method := "GET"; Path := "/api/klines";
     Query := <["symbols" := ["BTCUSDT, ETHUSDT "]]> (<["limit" := ["5"; "6"]]> ∅);
     Header := <["Host" := ["localhost:8080"]]>
                 (<["Connection" := ["keep-alive"]]>
                    (<["Accept-Encoding" := ["br"]]>
                       (<["X-Request-Id" := ["a"; "b"]]> ∅)));
     Body := [] |}.


Definition preflight : InboundRequest :=
  {| Method := "OPTIONS"; Path := "/api/ticker/24hr"; Query := ∅;
     Header := <["Origin" := ["https://app.example"]]> ∅; Body := [] |}.

Definition gzipTicker : UpstreamResponse :=
  {| StatusCode := 200;
     respHeader := <["Content-Encoding" := ["gzip"]]>
                     (<["Content-Length" := ["55"]]>
                        (<["Content-Type" := ["application/json"]]> ∅));
     respBody := inl Double.tickerGzip |}.

(** The header announces gzip, the body is not a gzip member. *)
Definition corruptTicker : UpstreamResponse :=
  {| StatusCode := 200;
     respHeader := <["Content-Encoding" := ["gzip"]]>
                     (<["Content-Length" := ["8"]]> ∅);
     respBody := inl (text "not gzip") |}.

Definition deflateTicker : UpstreamResponse :=
  {| StatusCode := 200;
     respHeader := <["Content-Encoding" := ["deflate"]]>
                     (<["Content-Length" := ["8"]]> ∅);
     respBody := inl (text "deflated") |}.


(** An upstream that answers every request with [resp]. *)
Definition answering (resp : UpstreamResponse) : Environment :=
  Double.environment (λ _, true) (λ _, inl resp).

(** An upstream that cannot be reached. *)
Definition refusing : Environment :=
  Double.environment (λ _, true)
    (λ _, inr "dial tcp 127.0.0.1:443: connect: connection refused").

Definition serve (E : Environment) : InboundRequest → Gin.Context :=
  @serveNoRoute Double.asciiTables E NewProxyServer.

(** [GET /api/klines%0Ax]: the decoded path has a line feed. *)
Definition controlPath : InboundRequest :=
  {| Method := "GET";
     Path := "/api/klines" +:+ String (ascii_of_N 10) "x";
     Query := ∅; Header := ∅; Body := [] |}.

(** [GET /api/account] with an API key, an agent and two [Accept] lines. *)
Definition signed : InboundRequest :=
  {| Method := "GET"; Path := "/api/account";
     Query := <["timestamp" := ["1700000000000"]]> ∅;
     Header := <["Host" := ["localhost:8080"]]>
                 (<["X-Mbx-Apikey" := ["key"]]>
                    (<["User-Agent" := ["curl/8.0"]]>
                       (<["Accept" := ["application/json"; "text/plain"]]> ∅)));
     Body := [] |}.

(** [GET /health] *)
Definition health : InboundRequest :=
  {| Method := "GET"; Path := "/health"; Query := ∅;
     Header := <["Accept" := ["*/*"]]> ∅; Body := [] |}.

(** The upstream refuses the request: too many of them. *)
Definition rateLimited : UpstreamResponse :=
  {| StatusCode := 429;
     respHeader := <["Content-Type" := ["application/json;charset=UTF-8"]]>
                     (<["Retry-After" := ["60"]]> ∅);
     respBody := inl (text "{}") |}.

(** Two [Set-Cookie] lines, a header without a value, a CORS header of the
    upstream; no [Content-Type], no [Content-Length]. *)
Definition cookies : UpstreamResponse :=
  {| StatusCode := 200;
     respHeader := <["Set-Cookie" := ["a=1"; "b=2"]]>
                     (<["X-Trace" := [""]]>
                        (<["Access-Control-Allow-Origin" :=
                             ["https://www.binance.com"]]> ∅));
     respBody := inl (text "pong") |}.

(** The connection breaks while the body is read. *)
Definition truncated : UpstreamResponse :=
  {| StatusCode := 200;
     respHeader := <["Content-Type" := ["application/json"]]>
                     (<["X-Mbx-Used-Weight" := ["1"]]> ∅);
     respBody := inr "unexpected EOF" |}.

(** An upstream that answers [resp], with a validator that takes for JSON
    the bodies that open a brace. *)
Definition answeringText (resp : UpstreamResponse) : Environment :=
  Double.environment
    (λ b, match b with
          | first :: _ => Byte.eqb first (Double.byte 123)
          | [] => false
          end)
    (λ _, inl resp).

(** [http.NewRequest] refuses a URL with a control character. *)
Definition strict : Environment :=
  {| range := λ _ h, map_to_list h;
     range_Permutation := λ _ h, Permutation_refl (map_to_list h);
     json_Marshal := JSON.Marshal;
     json_Unmarshal_ok := λ _, true;
     gzipReader := bytes;
     gzip_NewReader := Double.NewReader;
     io_ReadAll := Double.ReadAll;
     http_NewRequest := λ _ url,
       if forall_bytes (λ c, negb (byte_between 0 31 c || byte_between 127 127 c))
            url
       then None else Some "net/url: invalid control character in URL";
     client_Do := λ _, inl rateLimited |}.

(** PORT is 9090, BINANCE_API_URL is not set. *)
Definition onPort9090 : Host :=
  {| time_Now := "2024-05-01T12:00:00Z";
     os_Getenv := λ name, if String.eqb name "PORT" then "9090" else "" |}.

(** A test net as upstream, the port left to its default. *)
Definition onTestnet : Host :=
  {| time_Now := "2024-05-01T12:00:00Z";
     os_Getenv := λ name,
       if String.eqb name "BINANCE_API_URL"
       then "https://testnet.binance.vision/api/v3" else "" |}.

End Examples.

(** ** Vocabulary of the statements *)

Section Vocabulary.
Context `{!Unicode, !Environment}.

(** The names that [copyRequestHeader] does not forward. *)
Definition notForwarded : list string := ["host"; "connection"; "keep-alive"].

(** The context [ProxyRequest] receives from the router when no route
    matched: the middleware has set its four headers. *)
Definition afterMiddleware (r : InboundRequest) : Gin.Context :=
  Gin.Header "Access-Control-Max-Age" "3600"
    (Gin.Header "Access-Control-Allow-Headers" "Content-Type, Authorization"
       (Gin.Header "Access-Control-Allow-Methods"
          "GET, POST, PUT, DELETE, OPTIONS"
          (Gin.Header "Access-Control-Allow-Origin" "*"
             (Gin.noRouteContext r)))).

(** The answer to a preflight request: no round trip to the upstream,
    status 200, no body, the three CORS headers and the max-age directive. *)
Definition isPreflightAnswer (c : Gin.Context) : Prop :=
  Gin.Dispatched c = [] ∧
  Gin.Writer_Status c = 200%Z ∧
  Gin.Writer_Body c = Gin.Nothing ∧
  Gin.Writer_Header c !! "Access-Control-Allow-Origin" = Some ["*"] ∧
  Gin.Writer_Header c !! "Access-Control-Allow-Methods"
    = Some ["GET, POST, PUT, DELETE, OPTIONS"] ∧
  Gin.Writer_Header c !! "Access-Control-Allow-Headers"
    = Some ["Content-Type, Authorization"] ∧
  Gin.Writer_Header c !! "Access-Control-Max-Age" = Some ["3600"].

(** The upstream answered and its body could be read. *)
Definition upstreamAnswers (p : ProxyServer) (r : InboundRequest)
    (resp : UpstreamResponse) (body : bytes) : Prop :=
  Method r ≠ "OPTIONS" ∧
  http_NewRequest (Method r) (targetURL p r) = None ∧
  client_Do (upstreamRequest p r) = inl resp ∧
  respBody resp = inl body.

(** What the codec makes of a body: the decompressed bytes, or nothing
    when either step reports an error. *)
Definition gunzip (body : bytes) : option bytes :=
  match gzip_NewReader body with
  | inl reader =>
      match io_ReadAll reader with
      | inl decompressed => Some decompressed
      | inr _ => None
      end
  | inr _ => None
  end.

End Vocabulary.

(** No byte of [s] is [sep]. *)
Definition lacks (sep : ascii) (s : string) : bool :=
  forall_bytes (λ c, negb (Ascii.eqb c sep)) s.

(** The text [Encode] writes for one pair. *)
Definition encodedPair (kv : string * string) : string :=
  URL.QueryEscape kv.1 +:+ "=" +:+ URL.QueryEscape kv.2.

(** The names of a header map are canonical, as net/http delivers them. *)
Definition canonicalKeys (h : HTTP.Header) : Prop :=
  ∀ k, is_Some (h !! k) → MIME.CanonicalMIMEHeaderKey k = k.

(** Every header has a canonical name and at least one value. *)
Definition someValueEach (h : HTTP.Header) : Prop :=
  ∀ k values,
    h !! k = Some values → MIME.CanonicalMIMEHeaderKey k = k ∧ values ≠ [].

(** Every header has a canonical name and exactly one value, which is not
    empty. *)
Definition oneValueEach (h : HTTP.Header) : Prop :=
  ∀ k values,
    h !! k = Some values →
    MIME.CanonicalMIMEHeaderKey k = k ∧ ∃ v, values = [v] ∧ v ≠ "".

(** The three CORS headers of every answer. *)
Definition carriesCORS (h : HTTP.Header) : Prop :=
  h !! "Access-Control-Allow-Origin" = Some ["*"] ∧
  h !! "Access-Control-Allow-Methods"
    = Some ["GET, POST, PUT, DELETE, OPTIONS"] ∧
  h !! "Access-Control-Allow-Headers" = Some ["Content-Type, Authorization"].

(** The headers [relay] sets itself once the loop is over. *)
Definition setByRelay : list string :=
  ["Content-Type"; "Access-Control-Allow-Origin";
   "Access-Control-Allow-Methods"; "Access-Control-Allow-Headers";
   "Content-Length"].

(** The object of an error of the proxy: its three fields and no other. *)
Definition isErrorBody (body : Gin.Rendered) (code : Z) (msg message : string) :
    Prop :=
  ∃ obj : Gin.H,
    body = Gin.JSONObject obj ∧
    dom obj = {["code"; "msg"; "message"]} ∧
    obj !! "code" = Some (Gin.JNumber code) ∧
    obj !! "msg" = Some (Gin.JString msg) ∧
    obj !! "message" = Some (Gin.JString message).

(** [t] is [s] without the ASCII white space at its two ends: what was
    removed is white space, and [t] neither starts nor ends with any. *)
Definition isTrimmed (s t : string) : Prop :=
  (∃ pre post,
     s = pre +:+ t +:+ post ∧
     forall_bytes GoStrings.asciiSpace pre = true ∧
     forall_bytes GoStrings.asciiSpace post = true) ∧
  (∀ c rest, t = String c rest → GoStrings.asciiSpace c = false) ∧
  (∀ c rest, t = rest +:+ String c "" → GoStrings.asciiSpace c = false).

(** [s] between two double quotes. *)
Definition inQuotes (s : string) : string :=
  String (ascii_of_N 34) (s +:+ String (ascii_of_N 34) "").


(** * Properties *)

(** ** Bytes and header names *)

Ltac each_byte c :=
  destruct c as [[] [] [] [] [] [] [] []]; vm_compute; try done.

Lemma lowerByte_upperByte c : lowerByte (upperByte c) = lowerByte c.
Proof. each_byte c. Qed.

Lemma lowerByte_idemp c : lowerByte (lowerByte c) = lowerByte c.
Proof. each_byte c. Qed.

Lemma belowRuneSelf_upperByte c : belowRuneSelf (upperByte c) = belowRuneSelf c.
Proof. each_byte c. Qed.

Lemma belowRuneSelf_lowerByte c : belowRuneSelf (lowerByte c) = belowRuneSelf c.
Proof. each_byte c. Qed.

Lemma validHeaderFieldByte_below c :
  MIME.validHeaderFieldByte c = true → belowRuneSelf c = true.
Proof. each_byte c. Qed.

Lemma forall_bytes_impl (p q : ascii → bool) s :
  (∀ c, p c = true → q c = true) →
  forall_bytes p s = true → forall_bytes q s = true.
Proof.
  intros Hpq. induction s as [|c s IH]; [done|]. cbn [forall_bytes].
  rewrite !andb_true_iff. intros [??]; auto.
Qed.

Lemma map_lower_canonicalCase upper s :
  map_bytes lowerByte (MIME.canonicalCase upper s) = map_bytes lowerByte s.
Proof.
  revert upper. induction s as [|c s IH]; intros upper; [done|].
  cbn [MIME.canonicalCase map_bytes]. rewrite IH. f_equal.
  destruct upper; [apply lowerByte_upperByte | apply lowerByte_idemp].
Qed.

Lemma ascii_canonicalCase upper s :
  forall_bytes belowRuneSelf (MIME.canonicalCase upper s)
  = forall_bytes belowRuneSelf s.
Proof.
  revert upper. induction s as [|c s IH]; intros upper; [done|].
  cbn [MIME.canonicalCase forall_bytes]. rewrite IH. f_equal.
  destruct upper; [apply belowRuneSelf_upperByte | apply belowRuneSelf_lowerByte].
Qed.

Section HeaderNames.
Context `{!Unicode}.
Import GoStrings.

(** Canonicalisation changes the case of ASCII letters only, so the two
    spellings have the same lower-case form. *)
Lemma ToLower_Canonical key :
  ToLower (MIME.CanonicalMIMEHeaderKey key) = ToLower key.
Proof.
  unfold MIME.CanonicalMIMEHeaderKey.
  destruct (forall_bytes MIME.validHeaderFieldByte key) eqn:Hvalid; [|done].
  apply (forall_bytes_impl _ _ _ validHeaderFieldByte_below) in Hvalid.
  unfold ToLower.
  by rewrite ascii_canonicalCase, map_lower_canonicalCase, Hvalid.
Qed.

Lemma Canonical_neq_lower key key' :
  ToLower key ≠ ToLower key' → MIME.CanonicalMIMEHeaderKey key ≠ key'.
Proof. intros Hne <-. by rewrite ToLower_Canonical in Hne. Qed.

End HeaderNames.

(** ** Strings *)

Lemma append_cons c (s1 s2 : string) : String c s1 +:+ s2 = String c (s1 +:+ s2).
Proof. reflexivity. Qed.

Lemma append_assoc (s1 s2 s3 : string) : (s1 +:+ s2) +:+ s3 = s1 +:+ (s2 +:+ s3).
Proof. induction s1 as [|c s1 IH]; [done|]. rewrite !append_cons. by f_equal. Qed.

Lemma append_nil_r (s : string) : s +:+ "" = s.
Proof. induction s as [|c s IH]; [done|]. rewrite append_cons. by f_equal. Qed.

Lemma HasPrefix_append s prefix :
  GoStrings.HasPrefix s prefix = true →
  s = prefix +:+ GoStrings.drop_bytes (String.length prefix) s.
Proof.
  revert s. induction prefix as [|p prefix IH]; intros s; [done|].
  destruct s as [|c s]; [done|]. cbn [GoStrings.HasPrefix String.length].
  intros [->%Ascii.eqb_eq Hrest]%andb_true_iff.
  rewrite append_cons. cbn [GoStrings.drop_bytes]. f_equal. by apply IH.
Qed.

(** ** The target URL (lines 72-119) *)

Section Target.
Context `{!Unicode, !Environment}.
Import GoStrings.

Lemma normalizePath_slash path : HasPrefix (normalizePath path) "/" = true.
Proof.
  unfold normalizePath.
  destruct (HasPrefix (if HasPrefix path "/api" then _ else _) "/") eqn:Hslash;
    [done|]. reflexivity.
Qed.

Lemma reqURL_upstreamRequest p r :
  reqURL (upstreamRequest p r)
  = binanceURL p +:+ normalizePath (Path r) +:+
    (if bool_decide (0 < size (normalizeSymbols (Query r)))
     then "?" +:+ URL.Encode (normalizeSymbols (Query r)) else "").
Proof.
  cbn [upstreamRequest reqURL]. unfold targetURL. case_bool_decide.
  - by rewrite !append_assoc.
  - by rewrite append_nil_r.
Qed.

(** C4: [normalizePath] removes a leading [/api] when there is one, then
    puts a slash in front unless one is there already; the result starts
    with a slash; the URL of the outbound request is the base URL followed
    by the normalized path and, when there are query parameters, by [?] and
    their encoding. *)
Theorem C4_path_normalization p r path :
  (HasPrefix path "/api" = true →
   ∃ rest, path = "/api" +:+ rest ∧
           normalizePath path
           = if HasPrefix rest "/" then rest else "/" +:+ rest) ∧
  (HasPrefix path "/api" = false →
   normalizePath path = if HasPrefix path "/" then path else "/" +:+ path) ∧
  HasPrefix (normalizePath path) "/" = true ∧
  reqURL (upstreamRequest p r)
  = binanceURL p +:+ normalizePath (Path r) +:+
    (if bool_decide (0 < size (normalizeSymbols (Query r)))
     then "?" +:+ URL.Encode (normalizeSymbols (Query r)) else "") ∧
  normalizePath "/api/ticker/24hr" = "/ticker/24hr" ∧
  normalizePath "ticker/price" = "/ticker/price".
Proof.
  split; [|split; [|split; [|split]]].
  - intros Hapi. exists (TrimPrefix path "/api"). unfold normalizePath, TrimPrefix.
    rewrite Hapi. split.
    + by apply HasPrefix_append in Hapi.
    + by destruct (HasPrefix _ "/").
  - intros Hapi. unfold normalizePath. rewrite Hapi.
    by destruct (HasPrefix _ "/").
  - apply normalizePath_slash.
  - apply reqURL_upstreamRequest.
  - done.
Qed.

(** The loop of lines 99-101 trims every element. *)
Lemma trimInPlace_prefix (l : list string) n :
  n ≤ length l →
  foldl (λ l i, match l !! i with
                | Some s => <[i := TrimSpace s]> l
                | None => l
                end) l (seq 0 n)
  = (TrimSpace <$> take n l) ++ drop n l.
Proof.
  induction n as [|n IH]; intros Hn; [by rewrite drop_0|].
  rewrite seq_S, foldl_snoc, IH by lia. cbn [plus].
  destruct (lookup_lt_is_Some_2 l n) as [s Hs]; [lia|].
  assert (length (TrimSpace <$> take n l) = n) as Hlen.
  { rewrite length_fmap, length_take. lia. }
  rewrite lookup_app_r, Hlen, Nat.sub_diag, lookup_drop, Nat.add_0_r, Hs by lia.
  rewrite (take_S_r _ _ _ Hs), fmap_app, <- (assoc_L (++)). cbn [fmap list_fmap app].
  rewrite insert_app_r_alt, Hlen, Nat.sub_diag by lia.
  by rewrite (drop_S _ _ _ Hs).
Qed.

Lemma trimInPlace_fmap (l : list string) : trimInPlace l = TrimSpace <$> l.
Proof.
  unfold trimInPlace. rewrite trimInPlace_prefix by done.
  by rewrite firstn_all, drop_all, app_nil_r.
Qed.

End Target.

(** ** The encoded query *)

Lemma filter_key_fmap (k k' : string) (values : list string) :
  filter (λ kv : string * string, kv.1 = k) ((λ x, (k', x)) <$> values)
  = if decide (k' = k) then (λ x, (k, x)) <$> values else [].
Proof.
  induction values as [|v values IH]; [by case_decide|].
  rewrite fmap_cons, filter_cons, IH. cbn [fst].
  repeat case_decide; by subst.
Qed.

Lemma filter_key_bind (v : URL.Values) (keys : list string) k :
  NoDup keys →
  filter (λ kv : string * string, kv.1 = k)
    (k' ← keys; (λ x, (k', x)) <$> default [] (v !! k'))
  = if decide (k ∈ keys) then (λ x, (k, x)) <$> default [] (v !! k) else [].
Proof.
  induction keys as [|k' keys IH]; intros Hnodup.
  { by rewrite decide_False by apply not_elem_of_nil. }
  apply NoDup_cons in Hnodup as [Hfresh Hnodup].
  rewrite bind_cons, filter_app, filter_key_fmap, IH by done.
  destruct (decide (k' = k)) as [->|Hne].
  - rewrite decide_False by done. rewrite decide_True by left.
    by rewrite app_nil_r.
  - cbn [app]. destruct (decide (k ∈ keys)) as [Hin|Hnotin].
    + rewrite decide_True; [done|by right].
    + rewrite decide_False; [done|]. rewrite elem_of_cons.
      intros [->|Hin]; done.
Qed.

(** [Encode] writes, for each key, its values in their order. *)
Lemma pairs_of_key (v : URL.Values) k :
  filter (λ kv : string * string, kv.1 = k) (URL.pairs v)
  = (λ x, (k, x)) <$> default [] (v !! k).
Proof.
  unfold URL.pairs. rewrite filter_key_bind.
  - case_decide as Hin; [done|].
    unfold URL.sortedKeys in Hin.
    rewrite merge_sort_Permutation, elem_of_elements, elem_of_dom in Hin.
    apply eq_None_not_Some in Hin. by rewrite Hin.
  - unfold URL.sortedKeys. rewrite merge_sort_Permutation. apply NoDup_elements.
Qed.

(** ** Reading the query back *)

Lemma forall_bytes_append p s1 s2 :
  forall_bytes p (s1 +:+ s2) = forall_bytes p s1 && forall_bytes p s2.
Proof.
  induction s1 as [|c s1 IH]; [done|].
  rewrite append_cons. cbn [forall_bytes]. by rewrite IH, andb_assoc.
Qed.

Lemma lacks_append sep s1 s2 :
  lacks sep (s1 +:+ s2) = lacks sep s1 && lacks sep s2.
Proof. apply forall_bytes_append. Qed.

Lemma QueryUnescape_escapeByte c rest :
  URL.QueryUnescape (URL.escapeByte c +:+ rest)
  = String c <$> URL.QueryUnescape rest.
Proof. destruct c as [[] [] [] [] [] [] [] []]; reflexivity. Qed.

Lemma QueryUnescape_QueryEscape s : URL.QueryUnescape (URL.QueryEscape s) = Some s.
Proof.
  induction s as [|c s IH]; [done|]. cbn [URL.QueryEscape].
  by rewrite QueryUnescape_escapeByte, IH.
Qed.

(** The bytes that structure a query string are all escaped. *)
Lemma lacks_escapeByte sep c :
  sep ∈ ["&"; "="; ";"]%char → lacks sep (URL.escapeByte c) = true.
Proof.
  rewrite !elem_of_cons, elem_of_nil. intros [->|[->|[->|[]]]]; each_byte c.
Qed.

Lemma lacks_QueryEscape sep s :
  sep ∈ ["&"; "="; ";"]%char → lacks sep (URL.QueryEscape s) = true.
Proof.
  intros Hsep. induction s as [|c s IH]; [done|]. cbn [URL.QueryEscape].
  by rewrite lacks_append, IH, lacks_escapeByte.
Qed.

Lemma lacks_cons sep c s :
  lacks sep (String c s) = true → Ascii.eqb c sep = false ∧ lacks sep s = true.
Proof.
  unfold lacks. cbn [forall_bytes].
  by intros [Hc%negb_true_iff Hs]%andb_true_iff.
Qed.

Lemma Cut_lacks key value :
  lacks "=" key = true →
  GoStrings.Cut (key +:+ "=" +:+ value) "=" = (key, value).
Proof.
  induction key as [|c key IH]; [done|]. intros [Hc Hkey]%lacks_cons.
  rewrite append_cons. cbn [GoStrings.Cut]. by rewrite Hc, IH.
Qed.

Lemma Split_lacks piece :
  lacks "&" piece = true → GoStrings.Split piece "&" = [piece].
Proof.
  induction piece as [|c piece IH]; [done|]. intros [Hc Hpiece]%lacks_cons.
  cbn [GoStrings.Split]. by rewrite Hc, IH.
Qed.

Lemma Split_lacks_append piece rest :
  lacks "&" piece = true →
  GoStrings.Split (piece +:+ "&" +:+ rest) "&" = piece :: GoStrings.Split rest "&".
Proof.
  induction piece as [|c piece IH]; [done|]. intros [Hc Hpiece]%lacks_cons.
  rewrite append_cons. cbn [GoStrings.Split]. by rewrite Hc, IH.
Qed.

Lemma Split_concat pieces :
  pieces ≠ [] → Forall (λ piece, lacks "&" piece = true) pieces →
  GoStrings.Split (String.concat "&" pieces) "&" = pieces.
Proof.
  intros Hne Hplain. induction Hplain as [|piece pieces Hpiece _ IH]; [done|].
  destruct pieces as [|piece' pieces].
  - by apply Split_lacks.
  - change (String.concat "&" (piece :: piece' :: pieces))
      with (piece +:+ "&" +:+ String.concat "&" (piece' :: pieces)).
    rewrite Split_lacks_append by done. f_equal. by apply IH.
Qed.

Lemma lacks_encodedPair sep kv :
  sep ∈ ["&"; ";"]%char → lacks sep (encodedPair kv) = true.
Proof.
  intros Hsep. unfold encodedPair. rewrite !lacks_append.
  apply elem_of_cons in Hsep as [->|Hsep].
  - by rewrite !lacks_QueryEscape by by left.
  - apply list_elem_of_singleton in Hsep as ->.
    by rewrite !lacks_QueryEscape by by right; right; left.
Qed.

Lemma append_eq_nil (s1 s2 : string) : s1 +:+ s2 = "" → s1 = "" ∧ s2 = "".
Proof.
  destruct s1 as [|c s1]; [intros Heq; split; [done|exact Heq]|].
  rewrite append_cons. discriminate.
Qed.

Lemma parsePiece_encodedPair kv : URL.parsePiece (encodedPair kv) = Some kv.
Proof.
  unfold URL.parsePiece.
  fold (lacks ";" (encodedPair kv)).
  rewrite lacks_encodedPair by by right; left. cbn [negb].
  destruct kv as [key value]. unfold encodedPair. cbn [fst snd].
  destruct (String.eqb _ "") eqn:Hempty.
  - apply String.eqb_eq, append_eq_nil in Hempty as [_ Hempty].
    by apply append_eq_nil in Hempty as [? _].
  - rewrite Cut_lacks by (apply lacks_QueryEscape; by right; left).
    by rewrite !QueryUnescape_QueryEscape.
Qed.

(** Parsing an encoded query gives back every pair, in the order [Encode]
    wrote them. *)
Lemma ParseQuery_Encode (v : URL.Values) :
  URL.ParseQuery (URL.Encode v) = URL.pairs v.
Proof.
  unfold URL.ParseQuery, URL.Encode. fold encodedPair.
  destruct (URL.pairs v) as [|kv kvs] eqn:Hpairs; [done|].
  rewrite Split_concat.
  - rewrite <- Hpairs. clear Hpairs.
    induction (URL.pairs v) as [|kv' kvs' IH]; [done|].
    rewrite fmap_cons. cbn [omap list_omap].
    rewrite parsePiece_encodedPair. by f_equal.
  - done.
  - apply Forall_fmap, Forall_forall. intros kv' _.
    apply lacks_encodedPair. by left.
Qed.

(** ** The symbols parameter (lines 88-112) *)

Section Symbols.
Context `{!Unicode, !Environment}.
Import GoStrings.

(** C3: when the first value of [symbols] does not start with a bracket,
    the parameter becomes the marshalled list of the comma-separated
    pieces, each trimmed, and that text is the one value the outbound query
    carries for [symbols]; with the encoder of encoding/json it is the text
    of a JSON array, e.g. [["BTCUSDT","ETHUSDT"]] for both [BTCUSDT,ETHUSDT]
    and [BTCUSDT, ETHUSDT ].  When the encoder reports an error the query is
    left as it was. *)
Theorem C3_symbols_become_a_JSON_array (queryParams : URL.Values) value rest :
  queryParams !! "symbols" = Some (value :: rest) →
  HasPrefix value "[" = false →
  trimInPlace (Split value ",") = TrimSpace <$> Split value "," ∧
  (∀ symbolsJSON,
     json_Marshal (TrimSpace <$> Split value ",") = inl symbolsJSON →
     normalizeSymbols queryParams = <["symbols" := [symbolsJSON]]> queryParams ∧
     filter (λ kv : string * string, kv.1 = "symbols")
       (URL.ParseQuery (URL.Encode (normalizeSymbols queryParams)))
     = [("symbols", symbolsJSON)]) ∧
  (∀ err,
     json_Marshal (TrimSpace <$> Split value ",") = inr err →
     normalizeSymbols queryParams = queryParams) ∧
  ((∀ l, json_Marshal l = JSON.Marshal l) →
   normalizeSymbols queryParams !! "symbols"
   = Some [JSON.stringArray (TrimSpace <$> Split value ",")]) ∧
  TrimSpace <$> Split "BTCUSDT,ETHUSDT" "," = ["BTCUSDT"; "ETHUSDT"] ∧
  TrimSpace <$> Split "BTCUSDT, ETHUSDT " "," = ["BTCUSDT"; "ETHUSDT"] ∧
  JSON.Marshal ["BTCUSDT"; "ETHUSDT"]
  = inl ("[" +:+ String (ascii_of_N 34) "BTCUSDT" +:+ String (ascii_of_N 34) ","
           +:+ String (ascii_of_N 34) "ETHUSDT" +:+ String (ascii_of_N 34) "]").
Proof.
  intros Hsymbols Hbracket.
  assert (∀ symbolsJSON,
            json_Marshal (TrimSpace <$> Split value ",") = inl symbolsJSON →
            normalizeSymbols queryParams
            = <["symbols" := [symbolsJSON]]> queryParams) as Hrewritten.
  { intros symbolsJSON Hjson. unfold normalizeSymbols.
    by rewrite Hsymbols, Hbracket, trimInPlace_fmap, Hjson. }
  split; [apply trimInPlace_fmap|]. split; [|split; [|split]].
  - intros symbolsJSON Hjson. split; [by apply Hrewritten|].
    rewrite ParseQuery_Encode, pairs_of_key, (Hrewritten _ Hjson).
    by rewrite lookup_insert_eq.
  - intros err Hjson. unfold normalizeSymbols.
    by rewrite Hsymbols, Hbracket, trimInPlace_fmap, Hjson.
  - intros Hgo. rewrite (Hrewritten _ (Hgo _)). apply lookup_insert_eq.
  - by vm_compute.
Qed.

(** C5: a [symbols] value that starts with a bracket is left alone, and so
    is the rest of the query; normalising twice is normalising once. *)
Theorem C5_JSON_symbols_are_left_alone (queryParams : URL.Values) value rest :
  queryParams !! "symbols" = Some (value :: rest) →
  HasPrefix value "[" = true →
  normalizeSymbols queryParams = queryParams ∧
  normalizeSymbols (normalizeSymbols queryParams) = normalizeSymbols queryParams.
Proof.
  intros Hsymbols Hbracket.
  assert (normalizeSymbols queryParams = queryParams) as Hsame.
  { unfold normalizeSymbols. by rewrite Hsymbols, Hbracket. }
  by rewrite !Hsame.
Qed.



End Symbols.

(** ** The carried values *)

Section Query.
Context `{!Unicode, !Environment}.
Import GoStrings.


End Query.

(** ** The query on concrete requests *)

(** [symbols=BTCUSDT, ETHUSDT ] on its way to the upstream. *)
Lemma C3_symbols_witness :
  Query Examples.klines !! "symbols" = Some ["BTCUSDT, ETHUSDT "] ∧
  GoStrings.HasPrefix "BTCUSDT, ETHUSDT " "[" = false ∧
  @normalizeSymbols Double.asciiTables Examples.refusing (Query Examples.klines)
    !! "symbols"
  = Some [JSON.stringArray ["BTCUSDT"; "ETHUSDT"]] ∧
  reqURL (@upstreamRequest Double.asciiTables Examples.refusing NewProxyServer
            Examples.klines)
  = "https://api.binance.com/api/v3/klines?limit=5&limit=6&symbols=%5B%22BTCUSDT%22%2C%22ETHUSDT%22%5D".
Proof.
  destruct (@C3_symbols_become_a_JSON_array Double.asciiTables Examples.refusing
              (Query Examples.klines) "BTCUSDT, ETHUSDT " [] eq_refl eq_refl)
    as (_ & _ & _ & Hgo & _).
  refine (conj eq_refl (conj eq_refl (conj (Hgo (λ _, eq_refl)) _))).
  by vm_compute.
Defined.

(** A [symbols] value that is a JSON array already. *)
Lemma C5_JSON_symbols_witness :
  (<["symbols" := [JSON.stringArray ["BTCUSDT"; "ETHUSDT"]]]> ∅ : URL.Values)
    !! "symbols" = Some [JSON.stringArray ["BTCUSDT"; "ETHUSDT"]] ∧
  GoStrings.HasPrefix (JSON.stringArray ["BTCUSDT"; "ETHUSDT"]) "[" = true ∧
  @normalizeSymbols Double.asciiTables Examples.refusing
    (<["symbols" := [JSON.stringArray ["BTCUSDT"; "ETHUSDT"]]]> ∅)
  = <["symbols" := [JSON.stringArray ["BTCUSDT"; "ETHUSDT"]]]> ∅.
Proof.
  assert ((<["symbols" := [JSON.stringArray ["BTCUSDT"; "ETHUSDT"]]]> ∅
             : URL.Values) !! "symbols"
          = Some [JSON.stringArray ["BTCUSDT"; "ETHUSDT"]]) as Hsymbols
    by apply lookup_insert_eq.
  destruct (@C5_JSON_symbols_are_left_alone Double.asciiTables Examples.refusing
              _ _ _ Hsymbols eq_refl) as [Hsame _].
  exact (conj Hsymbols (conj eq_refl Hsame)).
Defined.



(** ** The header map *)

Lemma foldl_Add_lookup_ne key values (h : HTTP.Header) k :
  MIME.CanonicalMIMEHeaderKey key ≠ k →
  foldl (λ h value, HTTP.Add key value h) h values !! k = h !! k.
Proof.
  intros Hne. revert h. induction values as [|v values IH]; intros h; [done|].
  cbn [foldl]. rewrite IH. unfold HTTP.Add. by rewrite lookup_insert_ne.
Qed.

Lemma foldl_Add_lookup key values (h : HTTP.Header) :
  values ≠ [] →
  foldl (λ h value, HTTP.Add key value h) h values
    !! MIME.CanonicalMIMEHeaderKey key
  = Some (default [] (h !! MIME.CanonicalMIMEHeaderKey key) ++ values).
Proof.
  revert h. induction values as [|v values IH]; intros h Hne; [done|].
  cbn [foldl]. destruct values as [|v' values].
  - cbn [foldl]. unfold HTTP.Add. by rewrite lookup_insert_eq.
  - rewrite IH by done. f_equal. unfold HTTP.Add.
    rewrite lookup_insert_eq. simpl. by rewrite <- (assoc_L (++)).
Qed.

(** ** The request headers (lines 142-161) *)

Section RequestHeaders.
Context `{!Unicode, !Environment}.
Import GoStrings.

Lemma notForwarded_spec keyLower :
  String.eqb keyLower "host" || String.eqb keyLower "connection" ||
    String.eqb keyLower "keep-alive" = true
  ↔ keyLower ∈ notForwarded.
Proof.
  unfold notForwarded. rewrite !orb_true_iff, !String.eqb_eq.
  rewrite !elem_of_cons, elem_of_nil. tauto.
Qed.

Lemma copyRequestHeader_notForwarded h entry k :
  ToLower k ∈ notForwarded →
  h !! k = None → copyRequestHeader h entry !! k = None.
Proof.
  intros Hk Hh. destruct entry as [key values]. unfold copyRequestHeader.
  destruct (_ || _) eqn:Hskip; [done|].
  assert (ToLower key ∉ notForwarded) as Hkey.
  { rewrite <- notForwarded_spec. by rewrite Hskip. }
  destruct (String.eqb (ToLower key) "accept-encoding") eqn:Hae.
  - unfold HTTP.Set_. rewrite lookup_insert_ne; [done|].
    apply Canonical_neq_lower. intros Heq.
    apply notForwarded_spec in Hk. by rewrite <- Heq in Hk.
  - rewrite foldl_Add_lookup_ne; [done|].
    apply Canonical_neq_lower. congruence.
Qed.

Lemma foldl_copyRequestHeader_notForwarded entries h k :
  ToLower k ∈ notForwarded →
  h !! k = None → foldl copyRequestHeader h entries !! k = None.
Proof.
  intros Hk. revert h. induction entries as [|entry entries IH]; intros h Hh.
  - done.
  - cbn [foldl]. by apply IH, copyRequestHeader_notForwarded.
Qed.

Lemma ensureUserAgent_lookup_ne h k :
  k ≠ "User-Agent" → ensureUserAgent h !! k = h !! k.
Proof.
  intros Hne. unfold ensureUserAgent.
  destruct (String.eqb _ ""); [|done].
  unfold HTTP.Set_. by rewrite lookup_insert_ne.
Qed.

Lemma upstreamHeader_notForwarded r k :
  ToLower k ∈ notForwarded → upstreamHeader r !! k = None.
Proof.
  intros Hk. unfold upstreamHeader. rewrite ensureUserAgent_lookup_ne.
  - by apply foldl_copyRequestHeader_notForwarded.
  - intros ->. by apply notForwarded_spec in Hk.
Qed.

End RequestHeaders.

Section AcceptEncoding.
Context `{!Unicode, !Environment}.
Import GoStrings.

Lemma copyRequestHeader_other h entry :
  ToLower entry.1 ≠ "accept-encoding" →
  copyRequestHeader h entry !! "Accept-Encoding" = h !! "Accept-Encoding".
Proof.
  destruct entry as [key values]. cbn [fst]. intros Hkey.
  unfold copyRequestHeader. destruct (_ || _); [done|].
  apply String.eqb_neq in Hkey as Hae. rewrite Hae.
  rewrite foldl_Add_lookup_ne; [done|]. by apply Canonical_neq_lower.
Qed.

Lemma copyRequestHeader_overwrites h entry :
  ToLower entry.1 = "accept-encoding" →
  copyRequestHeader h entry !! "Accept-Encoding" = Some ["gzip, deflate"].
Proof.
  destruct entry as [key values]. cbn [fst]. intros Hkey.
  unfold copyRequestHeader. rewrite Hkey. cbn [String.eqb orb].
  unfold HTTP.Set_. apply lookup_insert_eq.
Qed.

Lemma foldl_copyRequestHeader_keeps entries h :
  h !! "Accept-Encoding" = Some ["gzip, deflate"] →
  foldl copyRequestHeader h entries !! "Accept-Encoding"
  = Some ["gzip, deflate"].
Proof.
  revert h. induction entries as [|entry entries IH]; intros h Hh; [done|].
  cbn [foldl]. apply IH.
  destruct (decide (ToLower entry.1 = "accept-encoding")).
  - by apply copyRequestHeader_overwrites.
  - by rewrite copyRequestHeader_other.
Qed.

Lemma foldl_copyRequestHeader_overwrites entries h entry :
  entry ∈ entries → ToLower entry.1 = "accept-encoding" →
  foldl copyRequestHeader h entries !! "Accept-Encoding"
  = Some ["gzip, deflate"].
Proof.
  intros Hin Hkey. revert h.
  induction Hin as [entry entries | entry entry' entries _ IH]; intros h.
  - cbn [foldl]. by apply foldl_copyRequestHeader_keeps,
      copyRequestHeader_overwrites.
  - cbn [foldl]. by apply IH.
Qed.

Lemma foldl_copyRequestHeader_none entries h :
  (∀ entry, entry ∈ entries → ToLower entry.1 ≠ "accept-encoding") →
  foldl copyRequestHeader h entries !! "Accept-Encoding"
  = h !! "Accept-Encoding".
Proof.
  revert h. induction entries as [|entry entries IH]; intros h Hall; [done|].
  cbn [foldl]. rewrite IH.
  - apply copyRequestHeader_other, Hall. by left.
  - intros entry' Hin. apply Hall. by right.
Qed.

(** The entries a [range] visits are those of the map. *)
Lemma elem_of_range site (h : HTTP.Header) key values :
  (key, values) ∈ range site h ↔ h !! key = Some values.
Proof. by rewrite range_Permutation, elem_of_map_to_list. Qed.

Lemma upstreamHeader_Accept_Encoding r key :
  is_Some (Header r !! key) → ToLower key = "accept-encoding" →
  upstreamHeader r !! "Accept-Encoding" = Some ["gzip, deflate"].
Proof.
  intros [values Hkey] Hlower. unfold upstreamHeader.
  rewrite ensureUserAgent_lookup_ne by done.
  apply (foldl_copyRequestHeader_overwrites _ _ (key, values)); [|done].
  by apply elem_of_range.
Qed.

Lemma upstreamHeader_no_Accept_Encoding r :
  (∀ key, is_Some (Header r !! key) → ToLower key ≠ "accept-encoding") →
  upstreamHeader r !! "Accept-Encoding" = None.
Proof.
  intros Hnone. unfold upstreamHeader.
  rewrite ensureUserAgent_lookup_ne by done.
  rewrite foldl_copyRequestHeader_none; [done|].
  intros [key values] Hin%elem_of_range. apply Hnone. by exists values.
Qed.

Lemma upstreamHeader_User_Agent r :
  HTTP.Get "User-Agent" (upstreamHeader r) ≠ "" ∧
  (HTTP.Get "User-Agent"
     (foldl copyRequestHeader ∅ (range RequestHeaders (Header r))) = "" →
   upstreamHeader r !! "User-Agent" = Some ["Binance-Proxy/1.0"]).
Proof.
  unfold upstreamHeader, ensureUserAgent.
  destruct (String.eqb _ "") eqn:Hua.
  - split; [|intros _]; unfold HTTP.Get, HTTP.Set_.
    + change (MIME.CanonicalMIMEHeaderKey "User-Agent") with "User-Agent".
      by rewrite lookup_insert_eq.
    + apply lookup_insert_eq.
  - apply String.eqb_neq in Hua. done.
Qed.

End AcceptEncoding.

(** ** What the gin operations leave alone *)

Create Rewrite HintDb gin.

Lemma Dispatched_withHeader f c :
  Gin.Dispatched (Gin.withHeader f c) = Gin.Dispatched c.
Proof. done. Qed.

Lemma Dispatched_Header key value c :
  Gin.Dispatched (Gin.Header key value c) = Gin.Dispatched c.
Proof. unfold Gin.Header. by destruct (String.eqb value ""). Qed.

Lemma Dispatched_Status code c :
  Gin.Dispatched (Gin.Status code c) = Gin.Dispatched c.
Proof. unfold Gin.Status. by destruct (0 <? code)%Z. Qed.

Lemma Dispatched_render code contentType body c :
  Gin.Dispatched (Gin.render code contentType body c) = Gin.Dispatched c.
Proof. unfold Gin.render. cbn. apply Dispatched_Status. Qed.

Lemma Dispatched_AbortWithStatus code c :
  Gin.Dispatched (Gin.AbortWithStatus code c) = Gin.Dispatched c.
Proof. unfold Gin.AbortWithStatus. cbn. apply Dispatched_Status. Qed.

#[global] Hint Rewrite Dispatched_withHeader Dispatched_Header
  Dispatched_Status Dispatched_render Dispatched_AbortWithStatus : gin.

Lemma Writer_Header_Header key value c :
  Gin.Writer_Header (Gin.Header key value c)
  = if String.eqb value "" then HTTP.Del key (Gin.Writer_Header c)
    else HTTP.Set_ key value (Gin.Writer_Header c).
Proof. unfold Gin.Header. by destruct (String.eqb value ""). Qed.

Lemma Writer_Header_Status code c :
  Gin.Writer_Header (Gin.Status code c) = Gin.Writer_Header c.
Proof. unfold Gin.Status. by destruct (0 <? code)%Z. Qed.

Lemma Writer_Body_Header key value c :
  Gin.Writer_Body (Gin.Header key value c) = Gin.Writer_Body c.
Proof. unfold Gin.Header. by destruct (String.eqb value ""). Qed.

Lemma Writer_Status_Header key value c :
  Gin.Writer_Status (Gin.Header key value c) = Gin.Writer_Status c.
Proof. unfold Gin.Header. by destruct (String.eqb value ""). Qed.

Lemma Request_Header key value c :
  Gin.Request (Gin.Header key value c) = Gin.Request c.
Proof. unfold Gin.Header. by destruct (String.eqb value ""). Qed.

#[global] Hint Rewrite Writer_Header_Status Writer_Body_Header
  Writer_Status_Header Request_Header : gin.

(** A header set by [c.Header] under another name is not affected. *)
Lemma Header_lookup_ne key value c k :
  MIME.CanonicalMIMEHeaderKey key ≠ k →
  Gin.Writer_Header (Gin.Header key value c) !! k = Gin.Writer_Header c !! k.
Proof.
  intros Hne. rewrite Writer_Header_Header.
  destruct (String.eqb value ""); unfold HTTP.Del, HTTP.Set_.
  - by rewrite lookup_delete_ne.
  - by rewrite lookup_insert_ne.
Qed.

Lemma Header_lookup_eq key value c :
  value ≠ "" →
  Gin.Writer_Header (Gin.Header key value c) !! MIME.CanonicalMIMEHeaderKey key
  = Some [value].
Proof.
  intros Hne. rewrite Writer_Header_Header.
  apply String.eqb_neq in Hne as ->. unfold HTTP.Set_. by rewrite lookup_insert_eq.
Qed.

(** ** Decimal text of a length *)

Lemma pretty_N_go_nonempty x s : s ≠ "" → pretty_N_go x s ≠ "".
Proof.
  revert s. induction (N.lt_wf_0 x) as [x _ IH]; intros s Hs.
  destruct (decide (x = 0)%N) as [->|Hx].
  - by rewrite pretty_N_go_0.
  - rewrite pretty_N_go_step by lia. apply IH; [|done].
    apply N.div_lt; lia.
Qed.

Lemma pretty_nat_nonempty (n : nat) : pretty n ≠ "".
Proof.
  unfold pretty, pretty_nat, pretty, pretty_N. case_decide; [done|].
  rewrite pretty_N_go_step by lia. by apply pretty_N_go_nonempty.
Qed.

(** ** The response headers (lines 237-277) *)

Lemma foldl_Header_lookup_ne key values c k :
  MIME.CanonicalMIMEHeaderKey key ≠ k →
  Gin.Writer_Header (foldl (λ c value, Gin.Header key value c) c values) !! k
  = Gin.Writer_Header c !! k.
Proof.
  intros Hne. revert c. induction values as [|v values IH]; intros c; [done|].
  cbn [foldl]. rewrite IH. by apply Header_lookup_ne.
Qed.

Lemma writeContentType_lookup_ne value (h : HTTP.Header) k :
  k ≠ "Content-Type" → Gin.writeContentType value h !! k = h !! k.
Proof.
  intros Hne. unfold Gin.writeContentType.
  destruct (h !! "Content-Type") as [[|??]|]; [|done|];
    by rewrite lookup_insert_ne.
Qed.

Section ResponseHeaders.
Context `{!Unicode, !Environment}.
Import GoStrings.

(** The fields of the context that the header loop does not touch. *)
Lemma copyResponseHeader_frame contentEncoding c entry :
  let c' := copyResponseHeader contentEncoding c entry in
  Gin.Dispatched c' = Gin.Dispatched c ∧
  Gin.Writer_Body c' = Gin.Writer_Body c ∧
  Gin.Writer_Status c' = Gin.Writer_Status c ∧
  Gin.Request c' = Gin.Request c.
Proof.
  destruct entry as [key values]. unfold copyResponseHeader.
  destruct (_ && _); [done|]. destruct (_ && _); [done|].
  revert c. induction values as [|v values IH]; intros c; [done|].
  cbn [foldl]. cbn zeta in IH.
  destruct (IH (Gin.Header key v c)) as (->&->&->&->).
  by autorewrite with gin.
Qed.

Lemma foldl_copyResponseHeader_frame contentEncoding entries c :
  let c' := foldl (copyResponseHeader contentEncoding) c entries in
  Gin.Dispatched c' = Gin.Dispatched c ∧
  Gin.Writer_Body c' = Gin.Writer_Body c ∧
  Gin.Writer_Status c' = Gin.Writer_Status c ∧
  Gin.Request c' = Gin.Request c.
Proof.
  revert c. induction entries as [|entry entries IH]; intros c; [done|].
  cbn [foldl]. cbn zeta in *.
  destruct (IH (copyResponseHeader contentEncoding c entry)) as (->&->&->&->).
  apply copyResponseHeader_frame.
Qed.

(** An entry copied under another canonical name leaves [k] alone,
    whatever the encoding. *)
Lemma copyResponseHeader_lookup_ne contentEncoding c entry k :
  MIME.CanonicalMIMEHeaderKey entry.1 ≠ k →
  Gin.Writer_Header (copyResponseHeader contentEncoding c entry) !! k
  = Gin.Writer_Header c !! k.
Proof.
  destruct entry as [key values]. cbn [fst]. intros Hne.
  unfold copyResponseHeader.
  destruct (_ && _); [done|]. destruct (_ && _); [done|].
  by apply foldl_Header_lookup_ne.
Qed.

Lemma foldl_copyResponseHeader_lookup_ne contentEncoding entries c k :
  (∀ entry, entry ∈ entries → MIME.CanonicalMIMEHeaderKey entry.1 ≠ k) →
  Gin.Writer_Header (foldl (copyResponseHeader contentEncoding) c entries) !! k
  = Gin.Writer_Header c !! k.
Proof.
  revert c. induction entries as [|entry entries IH]; intros c Hall; [done|].
  cbn [foldl]. rewrite IH.
  - apply copyResponseHeader_lookup_ne, Hall. by left.
  - intros entry' Hin. apply Hall. by right.
Qed.

(** When the upstream announced gzip, no spelling of the two names gets
    through the loop. *)
Lemma copyResponseHeader_gzip c entry k :
  ToLower k = "content-encoding" ∨ ToLower k = "content-length" →
  Gin.Writer_Header (copyResponseHeader "gzip" c entry) !! k
  = Gin.Writer_Header c !! k.
Proof.
  destruct entry as [key values]. intros Hk. unfold copyResponseHeader.
  cbn [String.eqb Ascii.eqb]. rewrite !andb_true_r.
  destruct (String.eqb (ToLower key) "content-encoding") eqn:Hce; [done|].
  destruct (String.eqb (ToLower key) "content-length") eqn:Hcl; [done|].
  apply String.eqb_neq in Hce, Hcl.
  apply foldl_Header_lookup_ne, Canonical_neq_lower.
  destruct Hk; congruence.
Qed.

Lemma foldl_copyResponseHeader_gzip entries c k :
  ToLower k = "content-encoding" ∨ ToLower k = "content-length" →
  Gin.Writer_Header (foldl (copyResponseHeader "gzip") c entries) !! k
  = Gin.Writer_Header c !! k.
Proof.
  intros Hk. revert c.
  induction entries as [|entry entries IH]; intros c; [done|].
  cbn [foldl]. rewrite IH. by apply copyResponseHeader_gzip.
Qed.

End ResponseHeaders.

(** ** The handler behind the middleware *)

Section Pipeline.
Context `{!Unicode, !Environment}.
Import GoStrings.

Lemma serveNoRoute_OPTIONS p r :
  String.eqb (Method r) "OPTIONS" = true →
  serveNoRoute p r = Gin.AbortWithStatus HTTP.StatusOK (afterMiddleware r).
Proof.
  intros Hm. unfold serveNoRoute, corsMiddleware.
  autorewrite with gin. cbn [Gin.noRouteContext Gin.Request]. by rewrite Hm.
Qed.

Lemma serveNoRoute_ProxyRequest p r :
  String.eqb (Method r) "OPTIONS" = false →
  serveNoRoute p r = ProxyRequest p (afterMiddleware r).
Proof.
  intros Hm. unfold serveNoRoute, corsMiddleware.
  autorewrite with gin. cbn [Gin.noRouteContext Gin.Request]. by rewrite Hm.
Qed.

Lemma Request_afterMiddleware r : Gin.Request (afterMiddleware r) = r.
Proof. done. Qed.

Lemma serveNoRoute_relay p r resp body :
  upstreamAnswers p r resp body →
  serveNoRoute p r
  = relay resp body (Gin.dispatched (upstreamRequest p r) (afterMiddleware r)).
Proof.
  intros (Hm%String.eqb_neq & Hnew & Hdo & Hbody).
  rewrite serveNoRoute_ProxyRequest by done. unfold ProxyRequest.
  rewrite Request_afterMiddleware, Hm, Hnew. cbn zeta. by rewrite Hdo, Hbody.
Qed.

(** At most one round trip, and it carries [upstreamRequest]. *)
Lemma Dispatched_relay resp body c :
  Gin.Dispatched (relay resp body c) = Gin.Dispatched c.
Proof.
  unfold relay. cbn zeta. unfold Gin.Data.
  rewrite Dispatched_render.
  match goal with |- context [if ?b then _ else _] => destruct b end;
    autorewrite with gin; apply foldl_copyResponseHeader_frame.
Qed.

Lemma Dispatched_serveNoRoute p r :
  Gin.Dispatched (serveNoRoute p r) = [] ∨
  Gin.Dispatched (serveNoRoute p r) = [upstreamRequest p r].
Proof.
  destruct (String.eqb (Method r) "OPTIONS") eqn:Hm.
  - left. rewrite serveNoRoute_OPTIONS by done. by autorewrite with gin.
  - rewrite serveNoRoute_ProxyRequest by done. unfold ProxyRequest.
    rewrite Request_afterMiddleware, Hm.
    destruct (http_NewRequest _ _).
    { left. unfold Gin.JSON. by rewrite Dispatched_render. }
    right. cbn zeta. destruct (client_Do _) as [resp|err].
    + destruct (respBody resp) as [body|err].
      * by rewrite Dispatched_relay.
      * unfold Gin.JSON. by rewrite Dispatched_render.
    + unfold Gin.JSON. by rewrite Dispatched_render.
Qed.

Lemma Writer_Header_afterMiddleware r k :
  ToLower k = "content-encoding" ∨ ToLower k = "content-length" →
  Gin.Writer_Header (afterMiddleware r) !! k = None.
Proof.
  intros Hk. unfold afterMiddleware.
  rewrite !Header_lookup_ne; [done|..];
    apply Canonical_neq_lower; destruct Hk as [-> | ->]; by vm_compute.
Qed.

Lemma Writer_Body_relay resp body c :
  Gin.Writer_Body (relay resp body c)
  = Gin.Bytes
      (bodyToSend (HTTP.Get "Content-Encoding" (respHeader resp)) body).
Proof. done. Qed.

(** After the loop nothing touches a [Content-Encoding] header. *)
Lemma relay_Content_Encoding resp body c k :
  ToLower k = "content-encoding" →
  Gin.Writer_Header (relay resp body c) !! k
  = Gin.Writer_Header
      (foldl (copyResponseHeader
                (HTTP.Get "Content-Encoding" (respHeader resp)))
         c (range ResponseHeaders (respHeader resp))) !! k.
Proof.
  intros Hk. unfold relay. cbn zeta. unfold Gin.Data, Gin.render.
  cbn [Gin.Writer_Header Gin.withHeader].
  assert (∀ name, ToLower name ≠ "content-encoding" →
            MIME.CanonicalMIMEHeaderKey name ≠ k) as Hother.
  { intros name Hname. apply Canonical_neq_lower. by rewrite Hk. }
  rewrite writeContentType_lookup_ne, Writer_Header_Status.
  - match goal with |- context [if ?b then _ else _] => destruct b end;
      rewrite !Header_lookup_ne; try done; apply Hother; by vm_compute.
  - intros ->. by vm_compute in Hk.
Qed.

(** The last word on [Content-Length]. *)
Lemma relay_Content_Length resp body c :
  let contentEncoding := HTTP.Get "Content-Encoding" (respHeader resp) in
  let copied :=
    Gin.Writer_Header
      (foldl (copyResponseHeader contentEncoding) c
         (range ResponseHeaders (respHeader resp))) in
  Gin.Writer_Header (relay resp body c) !! "Content-Length"
  = if String.eqb contentEncoding "gzip" ||
       String.eqb (HTTP.Get "Content-Length" copied) ""
    then Some [pretty (length (bodyToSend contentEncoding body))]
    else copied !! "Content-Length".
Proof.
  cbn zeta. unfold relay. cbn zeta. unfold Gin.Data, Gin.render.
  cbn [Gin.Writer_Header Gin.withHeader].
  rewrite writeContentType_lookup_ne, Writer_Header_Status by done.
  set (c1 := foldl _ c _).
  assert (∀ h : HTTP.Header, HTTP.Get "Content-Length" h
            = match h !! "Content-Length" with
              | Some (v :: _) => v
              | _ => ""
              end) as HGet by done.
  rewrite !HGet, !Header_lookup_ne by done.
  match goal with |- context [if ?b then _ else _] => destruct b end.
  - apply (Header_lookup_eq "Content-Length"), pretty_nat_nonempty.
  - by rewrite !Header_lookup_ne.
Qed.

End Pipeline.

(** ** Preflight, transport failure, request headers *)

Section Dispatch.
Context `{!Unicode, !Environment}.
Import GoStrings.

(** C6: a request with method OPTIONS is answered by the middleware, whatever
    handler the router had chosen ([next] is not run), on a route of its own
    or on none: no round trip to the upstream, status 200, the three CORS
    headers and the max-age directive.  [ProxyRequest] gives the same answer
    when it is handed such a request itself. *)
Theorem C6_preflight_never_reaches_upstream p next r :
  Method r = "OPTIONS" →
  isPreflightAnswer (corsMiddleware next (Gin.newContext r)) ∧
  Gin.IsAborted (corsMiddleware next (Gin.newContext r)) = true ∧
  isPreflightAnswer (corsMiddleware next (Gin.noRouteContext r)) ∧
  Gin.IsAborted (corsMiddleware next (Gin.noRouteContext r)) = true ∧
  isPreflightAnswer (serveNoRoute p r) ∧
  isPreflightAnswer (ProxyRequest p (Gin.newContext r)).
Proof.
  intros Hm.
  assert (∀ next c, Method (Gin.Request c) = "OPTIONS" →
            corsMiddleware next c
            = Gin.AbortWithStatus HTTP.StatusOK
                (Gin.Header "Access-Control-Max-Age" "3600"
                   (Gin.Header "Access-Control-Allow-Headers"
                      "Content-Type, Authorization"
                      (Gin.Header "Access-Control-Allow-Methods"
                         "GET, POST, PUT, DELETE, OPTIONS"
                         (Gin.Header "Access-Control-Allow-Origin" "*" c)))))
    as Hcors.
  { intros next' c Hc. unfold corsMiddleware. autorewrite with gin.
    by rewrite Hc. }
  assert (ProxyRequest p (Gin.newContext r)
          = Gin.Status HTTP.StatusOK
              (Gin.Header "Access-Control-Max-Age" "3600"
                 (Gin.Header "Access-Control-Allow-Headers"
                    "Content-Type, Authorization"
                    (Gin.Header "Access-Control-Allow-Methods"
                       "GET, POST, PUT, DELETE, OPTIONS"
                       (Gin.Header "Access-Control-Allow-Origin" "*"
                          (Gin.newContext r)))))) as Hhandler.
  { unfold ProxyRequest. cbn [Gin.newContext Gin.Request]. by rewrite Hm. }
  unfold serveNoRoute. rewrite !Hcors, Hhandler by done. by vm_compute.
Qed.

(** C7: when the round trip fails, the handler has made exactly one: it does
    not try again, and answers 502 with the object
    [{code: -1000, msg, message}], both texts naming the error. *)
Theorem C7_transport_failure_is_a_bad_gateway p r err :
  Method r ≠ "OPTIONS" →
  http_NewRequest (Method r) (targetURL p r) = None →
  client_Do (upstreamRequest p r) = inr err →
  Gin.Dispatched (serveNoRoute p r) = [upstreamRequest p r] ∧
  Gin.Writer_Status (serveNoRoute p r) = 502%Z ∧
  ∃ obj,
    Gin.Writer_Body (serveNoRoute p r) = Gin.JSONObject obj ∧
    obj !! "code" = Some (Gin.JNumber (-1000)) ∧
    obj !! "msg"
      = Some (Gin.JString ("Erro ao conectar com Binance: " +:+ err)) ∧
    obj !! "message"
      = Some (Gin.JString ("Erro ao conectar com Binance: " +:+ err)).
Proof.
  intros Hm%String.eqb_neq Hnew Hdo.
  rewrite serveNoRoute_ProxyRequest by done. unfold ProxyRequest.
  rewrite Request_afterMiddleware, Hm, Hnew. cbn zeta. rewrite Hdo.
  split; [done|]. split; [done|]. eexists. split; [done|].
  unfold errorBody. by simplify_map_eq.
Qed.

(** C8: the header map of the outbound request has no [host], [connection]
    or [keep-alive] entry under any spelling; it has
    [Accept-Encoding: gzip, deflate] as soon as the inbound request has an
    accept-encoding header; its [User-Agent] is never empty, and is
    [Binance-Proxy/1.0] when the copy left none.  No other request is ever
    sent upstream. *)
Theorem C8_outbound_request_headers p r :
  (∀ k, ToLower k ∈ notForwarded → reqHeader (upstreamRequest p r) !! k = None) ∧
  (∀ key, is_Some (Header r !! key) → ToLower key = "accept-encoding" →
     reqHeader (upstreamRequest p r) !! "Accept-Encoding"
     = Some ["gzip, deflate"]) ∧
  (HTTP.Get "User-Agent"
     (foldl copyRequestHeader ∅ (range RequestHeaders (Header r))) = "" →
   reqHeader (upstreamRequest p r) !! "User-Agent"
   = Some ["Binance-Proxy/1.0"]) ∧
  HTTP.Get "User-Agent" (reqHeader (upstreamRequest p r)) ≠ "" ∧
  (Gin.Dispatched (serveNoRoute p r) = [] ∨
   Gin.Dispatched (serveNoRoute p r) = [upstreamRequest p r]).
Proof.
  cbn [upstreamRequest reqHeader]. split; [|split; [|split; [|split]]].
  - apply upstreamHeader_notForwarded.
  - apply upstreamHeader_Accept_Encoding.
  - apply upstreamHeader_User_Agent.
  - apply upstreamHeader_User_Agent.
  - apply Dispatched_serveNoRoute.
Qed.

End Dispatch.

(** ** The dispatch on concrete requests *)

(** A preflight request for [/api/ticker/24hr]. *)
Lemma C6_preflight_witness :
  Method Examples.preflight = "OPTIONS" ∧
  Gin.Dispatched
    (Examples.serve (Examples.answering Examples.gzipTicker) Examples.preflight)
    = [] ∧
  Gin.Writer_Status
    (Examples.serve (Examples.answering Examples.gzipTicker) Examples.preflight)
    = 200%Z ∧
  Gin.Writer_Header
    (Examples.serve (Examples.answering Examples.gzipTicker) Examples.preflight)
    !! "Access-Control-Max-Age" = Some ["3600"].
Proof.
  pose proof (@C6_preflight_never_reaches_upstream Double.asciiTables
                (Examples.answering Examples.gzipTicker) NewProxyServer
                (λ c, c) Examples.preflight eq_refl) as Hpreflight.
  destruct Hpreflight
    as (_ & _ & _ & _ & (Hnone & Hstatus & _ & _ & _ & _ & Hage) & _).
  exact (conj eq_refl (conj Hnone (conj Hstatus Hage))).
Defined.

(** The upstream refuses the connection. *)
Lemma C7_transport_failure_witness :
  Method Examples.klines ≠ "OPTIONS" ∧
  @http_NewRequest Examples.refusing (Method Examples.klines)
    (@targetURL Double.asciiTables Examples.refusing NewProxyServer
       Examples.klines) = None ∧
  Gin.Writer_Status (Examples.serve Examples.refusing Examples.klines) = 502%Z ∧
  length (Gin.Dispatched (Examples.serve Examples.refusing Examples.klines)) = 1.
Proof.
  assert (Method Examples.klines ≠ "OPTIONS") as Hm by done.
  destruct (@C7_transport_failure_is_a_bad_gateway Double.asciiTables
              Examples.refusing NewProxyServer Examples.klines
              "dial tcp 127.0.0.1:443: connect: connection refused"
              Hm eq_refl eq_refl) as (Hone & Hstatus & _).
  refine (conj Hm (conj eq_refl (conj Hstatus _))).
  unfold Examples.serve. by rewrite Hone.
Defined.

(** The inbound request carries [Host], [Connection], [Accept-Encoding: br]
    and no [User-Agent]. *)
Lemma C8_outbound_request_witness :
  is_Some (Header Examples.klines !! "Accept-Encoding") ∧
  reqHeader
    (@upstreamRequest Double.asciiTables Examples.refusing NewProxyServer
       Examples.klines) !! "Accept-Encoding" = Some ["gzip, deflate"] ∧
  reqHeader
    (@upstreamRequest Double.asciiTables Examples.refusing NewProxyServer
       Examples.klines) !! "Host" = None ∧
  reqHeader
    (@upstreamRequest Double.asciiTables Examples.refusing NewProxyServer
       Examples.klines) !! "User-Agent" = Some ["Binance-Proxy/1.0"].
Proof.
  destruct (@C8_outbound_request_headers Double.asciiTables Examples.refusing
              NewProxyServer Examples.klines)
    as (Hdropped & Hencoding & Hagent & _).
  assert (is_Some (Header Examples.klines !! "Accept-Encoding")) as Hpresent.
  { exists ["br"]. by vm_compute. }
  refine (conj Hpresent (conj (Hencoding _ Hpresent eq_refl) (conj _ _))).
  - apply Hdropped. vm_compute. by left.
  - apply Hagent. by vm_compute.
Defined.

(** ** Decompression (lines 200-215) *)

Section Decompression.
Context `{!Unicode, !Environment}.
Import GoStrings.

Lemma bodyToSend_gzip body : bodyToSend "gzip" body = default body (gunzip body).
Proof.
  unfold bodyToSend, gunzip. cbn [String.eqb Ascii.eqb].
  destruct (gzip_NewReader body) as [reader|]; [|done].
  by destruct (io_ReadAll reader).
Qed.

Lemma bodyToSend_other contentEncoding body :
  contentEncoding ≠ "gzip" → bodyToSend contentEncoding body = body.
Proof. intros Hne%String.eqb_neq. unfold bodyToSend. by rewrite Hne. Qed.

Lemma NoDup_range site (h : HTTP.Header) : NoDup (range site h).*1.
Proof. rewrite range_Permutation. apply NoDup_fst_map_to_list. Qed.


(** The status handed to [c.Data] is the one the writer keeps. *)
Lemma Writer_Status_relay resp body c :
  (0 < StatusCode resp)%Z →
  Gin.Writer_Status (relay resp body c) = StatusCode resp.
Proof.
  intros Hcode%Z.ltb_lt. unfold relay. cbn zeta. unfold Gin.Data, Gin.render.
  cbn [Gin.Writer_Status Gin.withHeader]. unfold Gin.Status. by rewrite Hcode.
Qed.

(** C1: what the code does when the upstream announces gzip and the body
    does not decompress.  The bytes are relayed as received, with the
    status of the upstream: the request does not fail.  But no
    [Content-Encoding] header goes out, under any spelling, although
    nothing was decompressed; [Content-Length] is set to the length of the
    bytes relayed. *)
Theorem C1_failed_gunzip_loses_the_encoding_header p r resp body :
  upstreamAnswers p r resp body →
  HTTP.Get "Content-Encoding" (respHeader resp) = "gzip" →
  gunzip body = None →
  Gin.Writer_Body (serveNoRoute p r) = Gin.Bytes body ∧
  ((0 < StatusCode resp)%Z →
   Gin.Writer_Status (serveNoRoute p r) = StatusCode resp) ∧
  Gin.Writer_Header (serveNoRoute p r) !! "Content-Encoding" = None ∧
  (∀ k, ToLower k = "content-encoding" →
        Gin.Writer_Header (serveNoRoute p r) !! k = None) ∧
  Gin.Writer_Header (serveNoRoute p r) !! "Content-Length"
    = Some [pretty (length body)].
Proof.
  intros Hanswers Hce Hgunzip. rewrite (serveNoRoute_relay _ _ _ _ Hanswers).
  assert (∀ k, ToLower k = "content-encoding" →
            Gin.Writer_Header
              (relay resp body
                 (Gin.dispatched (upstreamRequest p r) (afterMiddleware r)))
              !! k = None) as Hnone.
  { intros k Hk. rewrite relay_Content_Encoding, Hce by done.
    rewrite foldl_copyResponseHeader_gzip by auto.
    apply Writer_Header_afterMiddleware. auto. }
  split; [|split; [|split; [|split]]].
  - by rewrite Writer_Body_relay, Hce, bodyToSend_gzip, Hgunzip.
  - apply Writer_Status_relay.
  - apply Hnone. by vm_compute.
  - done.
  - rewrite relay_Content_Length. cbn zeta. rewrite Hce.
    cbn [String.eqb Ascii.eqb orb]. by rewrite bodyToSend_gzip, Hgunzip.
Qed.

End Decompression.

(** ** The relayed response *)

Section Relay.
Context `{!Unicode, !Environment}.
Import GoStrings.

(** C2: when the upstream announces [Content-Encoding: gzip] and the body
    is a valid gzip stream, the proxied body is the decompressed bytes,
    no [Content-Encoding] header goes out under any spelling, and
    [Content-Length] is the number of decompressed bytes. *)
Theorem C2_gzip_response_is_decompressed p r resp body decompressed :
  upstreamAnswers p r resp body →
  HTTP.Get "Content-Encoding" (respHeader resp) = "gzip" →
  gunzip body = Some decompressed →
  Gin.Writer_Body (serveNoRoute p r) = Gin.Bytes decompressed ∧
  Gin.Writer_Header (serveNoRoute p r) !! "Content-Encoding" = None ∧
  (∀ k, ToLower k = "content-encoding" →
        Gin.Writer_Header (serveNoRoute p r) !! k = None) ∧
  Gin.Writer_Header (serveNoRoute p r) !! "Content-Length"
    = Some [pretty (length decompressed)].
Proof.
  intros Hanswers Hce Hgunzip. rewrite (serveNoRoute_relay _ _ _ _ Hanswers).
  assert (∀ k, ToLower k = "content-encoding" →
            Gin.Writer_Header
              (relay resp body
                 (Gin.dispatched (upstreamRequest p r) (afterMiddleware r)))
              !! k = None) as Hnone.
  { intros k Hk. rewrite relay_Content_Encoding, Hce by done.
    rewrite foldl_copyResponseHeader_gzip by auto.
    apply Writer_Header_afterMiddleware. auto. }
  split; [|split; [|split]].
  - by rewrite Writer_Body_relay, Hce, bodyToSend_gzip, Hgunzip.
  - apply Hnone. by vm_compute.
  - done.
  - rewrite relay_Content_Length. cbn zeta. rewrite Hce.
    cbn [String.eqb Ascii.eqb orb]. by rewrite bodyToSend_gzip, Hgunzip.
Qed.


End Relay.

(** ** The relay on concrete responses *)

(** A gzip member with one stored block, answered to [GET /api/klines]. *)
Lemma C2_gzip_response_witness :
  @upstreamAnswers Double.asciiTables (Examples.answering Examples.gzipTicker)
    NewProxyServer Examples.klines Examples.gzipTicker Double.tickerGzip ∧
  HTTP.Get "Content-Encoding" (respHeader Examples.gzipTicker) = "gzip" ∧
  @gunzip (Examples.answering Examples.gzipTicker) Double.tickerGzip
    = Some Double.tickerJSON ∧
  Gin.Writer_Body
    (Examples.serve (Examples.answering Examples.gzipTicker) Examples.klines)
    = Gin.Bytes Double.tickerJSON ∧
  Gin.Writer_Header
    (Examples.serve (Examples.answering Examples.gzipTicker) Examples.klines)
    !! "Content-Encoding" = None ∧
  Gin.Writer_Header
    (Examples.serve (Examples.answering Examples.gzipTicker) Examples.klines)
    !! "Content-Length" = Some ["32"].
Proof.
  assert (@upstreamAnswers Double.asciiTables
            (Examples.answering Examples.gzipTicker)
            NewProxyServer Examples.klines Examples.gzipTicker
            Double.tickerGzip) as Hanswers by (split; [done|repeat split]).
  assert (HTTP.Get "Content-Encoding" (respHeader Examples.gzipTicker) = "gzip")
    as Hce by (vm_compute; reflexivity).
  assert (@gunzip (Examples.answering Examples.gzipTicker) Double.tickerGzip
          = Some Double.tickerJSON) as Hgunzip by (vm_compute; reflexivity).
  destruct (C2_gzip_response_is_decompressed _ _ _ _ _ Hanswers Hce Hgunzip)
    as (Hbody & Hencoding & _ & Hlength).
  exact (conj Hanswers
           (conj Hce (conj Hgunzip (conj Hbody (conj Hencoding Hlength))))).
Defined.

(** The failing input of C1: the header says gzip, the body is the eight
    bytes [not gzip].  They are relayed with status 200 and without the
    [Content-Encoding] header the upstream had sent. *)
Lemma C1_failed_gunzip_witness :
  @upstreamAnswers Double.asciiTables
    (Examples.answering Examples.corruptTicker) NewProxyServer Examples.klines
    Examples.corruptTicker (Examples.text "not gzip") ∧
  respHeader Examples.corruptTicker !! "Content-Encoding" = Some ["gzip"] ∧
  @gunzip (Examples.answering Examples.corruptTicker)
    (Examples.text "not gzip") = None ∧
  Gin.Writer_Body
    (Examples.serve (Examples.answering Examples.corruptTicker) Examples.klines)
    = Gin.Bytes (Examples.text "not gzip") ∧
  Gin.Writer_Status
    (Examples.serve (Examples.answering Examples.corruptTicker) Examples.klines)
    = 200%Z ∧
  Gin.Writer_Header
    (Examples.serve (Examples.answering Examples.corruptTicker) Examples.klines)
    !! "Content-Encoding" = None.
Proof.
  assert (@upstreamAnswers Double.asciiTables
            (Examples.answering Examples.corruptTicker) NewProxyServer
            Examples.klines Examples.corruptTicker (Examples.text "not gzip"))
    as Hanswers by (split; [done|repeat split]).
  assert (@gunzip (Examples.answering Examples.corruptTicker)
            (Examples.text "not gzip") = None) as Hgunzip by by vm_compute.
  destruct (C1_failed_gunzip_loses_the_encoding_header _ _ _ _
              Hanswers eq_refl Hgunzip) as (Hbody & Hstatus & Hnone & _).
  exact (conj Hanswers
           (conj eq_refl
              (conj Hgunzip (conj Hbody (conj (Hstatus eq_refl) Hnone))))).
Defined.



(** * Further properties of main.go *)

(** ** Reversed strings *)

Lemma rev_app_append s1 s2 : String.rev_app s1 s2 = String.rev s1 +:+ s2.
Proof.
  revert s2. induction s1 as [|c s1 IH]; intros s2; [done|].
  unfold String.rev. cbn [String.rev_app].
  by rewrite (IH (String c s2)), (IH (String c "")), append_assoc.
Qed.

Lemma rev_cons c s : String.rev (String c s) = String.rev s +:+ String c "".
Proof. unfold String.rev at 1. cbn [String.rev_app]. apply rev_app_append. Qed.

Lemma rev_append s1 s2 :
  String.rev (s1 +:+ s2) = String.rev s2 +:+ String.rev s1.
Proof.
  induction s1 as [|c s1 IH]; [by rewrite append_nil_r|].
  by rewrite append_cons, !rev_cons, IH, append_assoc.
Qed.

Lemma rev_involutive s : String.rev (String.rev s) = s.
Proof.
  induction s as [|c s IH]; [done|]. by rewrite rev_cons, rev_append, IH.
Qed.

Lemma forall_bytes_rev p s : forall_bytes p (String.rev s) = forall_bytes p s.
Proof.
  induction s as [|c s IH]; [done|].
  rewrite rev_cons, forall_bytes_append, IH. cbn [forall_bytes].
  by rewrite andb_true_r, andb_comm.
Qed.

(** ** Prefixes *)

Lemma HasPrefix_append_l (s1 s2 : string) :
  GoStrings.HasPrefix (s1 +:+ s2) s1 = true.
Proof.
  induction s1 as [|c s1 IH]; [done|]. rewrite append_cons.
  cbn [GoStrings.HasPrefix]. by rewrite Ascii.eqb_refl, IH.
Qed.

(** A prefix without the byte [sep] is not completed by a text that starts
    with [sep]. *)
Lemma HasPrefix_append_other s rest prefix sep :
  lacks sep prefix = true →
  GoStrings.HasPrefix (s +:+ String sep rest) prefix
  = GoStrings.HasPrefix s prefix.
Proof.
  revert s. induction prefix as [|p prefix IH]; intros s Hlacks; [done|].
  apply lacks_cons in Hlacks as [Hp Hprefix].
  destruct s as [|c s].
  - change ("" +:+ String sep rest) with (String sep rest).
    cbn [GoStrings.HasPrefix]. by rewrite Hp.
  - rewrite append_cons. cbn [GoStrings.HasPrefix]. by rewrite IH.
Qed.

Lemma drop_bytes_append s rest prefix :
  GoStrings.HasPrefix s prefix = true →
  GoStrings.drop_bytes (String.length prefix) (s +:+ rest)
  = GoStrings.drop_bytes (String.length prefix) s +:+ rest.
Proof.
  revert s. induction prefix as [|p prefix IH]; intros s; [by destruct s|].
  destruct s as [|c s]; [done|]. cbn [GoStrings.HasPrefix].
  intros [_ Hs]%andb_true_iff. rewrite append_cons. cbn. by apply IH.
Qed.

(** ** Splitting and joining *)

Lemma Split_nonempty s sep : GoStrings.Split s sep ≠ [].
Proof.
  destruct s as [|c s]; [done|]. cbn [GoStrings.Split].
  destruct (Ascii.eqb c sep); [done|]. by destruct (GoStrings.Split s sep).
Qed.

Lemma concat_cons sep (piece : string) pieces :
  pieces ≠ [] →
  String.concat sep (piece :: pieces)
  = piece +:+ sep +:+ String.concat sep pieces.
Proof. by destruct pieces. Qed.

(** Joining the pieces gives the text back. *)
Lemma concat_Split s sep :
  String.concat (String sep "") (GoStrings.Split s sep) = s.
Proof.
  induction s as [|c s IH]; [done|]. cbn [GoStrings.Split].
  destruct (Ascii.eqb c sep) eqn:Hc.
  - apply Ascii.eqb_eq in Hc as ->.
    rewrite concat_cons by apply Split_nonempty. by rewrite IH.
  - pose proof (Split_nonempty s sep) as Hne.
    destruct (GoStrings.Split s sep) as [|piece pieces]; [done|].
    destruct pieces as [|piece' pieces].
    + cbn in IH |- *. by rewrite IH.
    + rewrite concat_cons in IH |- * by done.
      by rewrite append_cons, IH.
Qed.

Lemma Forall_Split (p : ascii → bool) s sep :
  forall_bytes p s = true →
  Forall (λ piece, forall_bytes p piece = true) (GoStrings.Split s sep).
Proof.
  induction s as [|c s IH]; [by repeat constructor|].
  cbn [forall_bytes GoStrings.Split]. intros [Hc Hs]%andb_true_iff.
  specialize (IH Hs). destruct (Ascii.eqb c sep); [by constructor|].
  destruct IH as [|piece pieces Hpiece Hpieces].
  - repeat constructor. cbn. by rewrite Hc.
  - constructor; [|done]. cbn [forall_bytes]. by rewrite Hc, Hpiece.
Qed.

Lemma lacks_Split s sep :
  Forall (λ piece, lacks sep piece = true) (GoStrings.Split s sep).
Proof.
  induction s as [|c s IH]; [by repeat constructor|].
  cbn [GoStrings.Split]. destruct (Ascii.eqb c sep) eqn:Hc; [by constructor|].
  destruct IH as [|piece pieces Hpiece Hpieces].
  - repeat constructor. unfold lacks. cbn. by rewrite Hc.
  - constructor; [|done]. unfold lacks in *. cbn [forall_bytes].
    by rewrite Hc, Hpiece.
Qed.


(** ** Trimming a text of ASCII bytes *)

Section Trim.
Context `{!Unicode}.
Import GoStrings.

(** The second loop of [TrimSpace]: the white space at the head of the
    reversed text goes, the rest is put back in order. *)
Lemma trimRightScan_ascii rev_s :
  forall_bytes belowRuneSelf rev_s = true →
  ∃ post t,
    rev_s = post +:+ t ∧ forall_bytes asciiSpace post = true ∧
    trimRightScan rev_s = String.rev t ∧
    (∀ c rest, t = String c rest → asciiSpace c = false).
Proof.
  induction rev_s as [|c rev_s IH]; [by exists "", ""|].
  cbn [forall_bytes trimRightScan]. intros [Hc Hrest]%andb_true_iff.
  rewrite Hc. cbn [negb]. destruct (asciiSpace c) eqn:Hspace.
  - destruct (IH Hrest) as (post & t & -> & Hpost & Htrim & Hfirst).
    exists (String c post), t. rewrite append_cons. cbn [forall_bytes].
    by rewrite Hspace, Hpost.
  - exists "", (String c rev_s). repeat split; try done.
    by intros c' rest [= <- _].
Qed.

Lemma TrimSpace_ascii s :
  forall_bytes belowRuneSelf s = true → isTrimmed s (TrimSpace s).
Proof.
  induction s as [|c s IH].
  { intros _. split; [by exists "", ""|]. split; [done|].
    intros c rest Heq. by destruct rest. }
  cbn [forall_bytes]. intros [Hc Hs]%andb_true_iff.
  cbn [TrimSpace]. rewrite Hc. cbn [negb]. destruct (asciiSpace c) eqn:Hspace.
  - destruct (IH Hs) as ((pre & post & Heq & Hpre & Hpost) & Hfirst & Hlast).
    split; [|done]. exists (String c pre), post. rewrite append_cons.
    cbn [forall_bytes]. by rewrite Hspace, Hpre, <- Heq.
  - destruct (trimRightScan_ascii (String.rev (String c s)))
      as (post & t & Hrev & Hpost & -> & Hfirst).
    { rewrite forall_bytes_rev. cbn [forall_bytes]. by rewrite Hc, Hs. }
    apply (f_equal String.rev) in Hrev.
    rewrite rev_involutive, rev_append in Hrev.
    split; [|split].
    + exists "", (String.rev post). by rewrite forall_bytes_rev.
    + intros c' rest Ht. rewrite Ht, append_cons in Hrev.
      by injection Hrev as <- _.
    + intros c' rest Ht. apply (f_equal String.rev) in Ht.
      rewrite rev_involutive, rev_append in Ht. by apply (Hfirst _ _ Ht).
Qed.

End Trim.

Lemma isTrimmed_forall_bytes p s t :
  isTrimmed s t → forall_bytes p s = true → forall_bytes p t = true.
Proof.
  intros ((pre & post & -> & _) & _). rewrite !forall_bytes_append.
  by intros [_ [? _]%andb_true_iff]%andb_true_iff.
Qed.

(** ** Quoting a text that needs no escape *)

Lemma htmlSafe_below c : JSON.htmlSafe c = true → belowRuneSelf c = true.
Proof. each_byte c. Qed.

Lemma escapeString_htmlSafe s :
  forall_bytes JSON.htmlSafe s = true → JSON.escapeString 0 s = s.
Proof.
  induction s as [|c s IH]; [done|]. cbn [forall_bytes JSON.escapeString].
  intros [Hc Hs]%andb_true_iff.
  by rewrite (htmlSafe_below _ Hc), Hc, append_cons, IH.
Qed.

Lemma quote_htmlSafe s :
  forall_bytes JSON.htmlSafe s = true → JSON.quote s = inQuotes s.
Proof.
  intros Hs. unfold JSON.quote, inQuotes. by rewrite escapeString_htmlSafe.
Qed.

Lemma HasPrefix_stringArray l :
  GoStrings.HasPrefix (JSON.stringArray l) "[" = true.
Proof. done. Qed.

(** ** The bytes of an encoded query *)




(** ** Canonical names twice *)

Lemma upperByte_idemp c : upperByte (upperByte c) = upperByte c.
Proof. each_byte c. Qed.

Lemma validHeaderFieldByte_upperByte c :
  MIME.validHeaderFieldByte (upperByte c) = MIME.validHeaderFieldByte c.
Proof. each_byte c. Qed.

Lemma validHeaderFieldByte_lowerByte c :
  MIME.validHeaderFieldByte (lowerByte c) = MIME.validHeaderFieldByte c.
Proof. each_byte c. Qed.

Lemma valid_canonicalCase upper s :
  forall_bytes MIME.validHeaderFieldByte (MIME.canonicalCase upper s)
  = forall_bytes MIME.validHeaderFieldByte s.
Proof.
  revert upper. induction s as [|c s IH]; intros upper; [done|].
  cbn [MIME.canonicalCase forall_bytes]. rewrite IH. f_equal.
  destruct upper;
    [apply validHeaderFieldByte_upperByte|apply validHeaderFieldByte_lowerByte].
Qed.

Lemma canonicalCase_idemp upper s :
  MIME.canonicalCase upper (MIME.canonicalCase upper s)
  = MIME.canonicalCase upper s.
Proof.
  revert upper. induction s as [|c s IH]; intros upper; [done|].
  cbn [MIME.canonicalCase]. destruct upper.
  - rewrite upperByte_idemp. f_equal. apply IH.
  - rewrite lowerByte_idemp. f_equal. apply IH.
Qed.

Lemma Canonical_idemp key :
  MIME.CanonicalMIMEHeaderKey (MIME.CanonicalMIMEHeaderKey key)
  = MIME.CanonicalMIMEHeaderKey key.
Proof.
  unfold MIME.CanonicalMIMEHeaderKey.
  destruct (forall_bytes MIME.validHeaderFieldByte key) eqn:Hvalid.
  - by rewrite valid_canonicalCase, Hvalid, canonicalCase_idemp.
  - by rewrite Hvalid.
Qed.

(** ** The shape of the header maps *)

Lemma someValueEach_Set key value h :
  someValueEach h → someValueEach (HTTP.Set_ key value h).
Proof.
  intros Hh k values. unfold HTTP.Set_.
  destruct (decide (MIME.CanonicalMIMEHeaderKey key = k)) as [<-|Hne].
  - rewrite lookup_insert_eq. intros [= <-]. split; [apply Canonical_idemp|done].
  - rewrite lookup_insert_ne by done. apply Hh.
Qed.

Lemma someValueEach_Add key value h :
  someValueEach h → someValueEach (HTTP.Add key value h).
Proof.
  intros Hh k values. unfold HTTP.Add.
  destruct (decide (MIME.CanonicalMIMEHeaderKey key = k)) as [<-|Hne].
  - rewrite lookup_insert_eq. intros [= <-]. split; [apply Canonical_idemp|].
    by destruct (default [] _).
  - rewrite lookup_insert_ne by done. apply Hh.
Qed.

Lemma oneValueEach_Header key value c :
  oneValueEach (Gin.Writer_Header c) →
  oneValueEach (Gin.Writer_Header (Gin.Header key value c)).
Proof.
  intros Hc k values. rewrite Writer_Header_Header.
  destruct (String.eqb value "") eqn:Hvalue; unfold HTTP.Del, HTTP.Set_.
  - intros [_ Hk]%lookup_delete_Some. by apply Hc.
  - apply String.eqb_neq in Hvalue.
    destruct (decide (MIME.CanonicalMIMEHeaderKey key = k)) as [<-|Hne].
    + rewrite lookup_insert_eq. intros [= <-].
      split; [apply Canonical_idemp|]. by exists value.
    + rewrite lookup_insert_ne by done. apply Hc.
Qed.

Lemma oneValueEach_render code contentType body c :
  contentType ≠ "" →
  oneValueEach (Gin.Writer_Header c) →
  oneValueEach (Gin.Writer_Header (Gin.render code contentType body c)).
Proof.
  intros Htype Hc k values. unfold Gin.render.
  cbn [Gin.Writer_Header Gin.withHeader]. rewrite Writer_Header_Status.
  unfold Gin.writeContentType.
  destruct (Gin.Writer_Header c !! "Content-Type") as [[|v vs]|] eqn:Hct;
    [|apply Hc|].
  - by destruct (Hc _ _ Hct) as [_ (v & [=] & _)].
  - destruct (decide (k = "Content-Type")) as [->|Hne].
    + rewrite lookup_insert_eq. intros [= <-]. split; [done|]. by eexists.
    + rewrite lookup_insert_ne by done. apply Hc.
Qed.

Lemma oneValueEach_afterMiddleware r :
  oneValueEach (Gin.Writer_Header (afterMiddleware r)).
Proof.
  unfold afterMiddleware. do 4 apply oneValueEach_Header.
  intros k values. cbn. by rewrite lookup_empty.
Qed.

(** ** The values of a parsed query *)


(** ** The outbound URL (lines 72-119) *)

Section OutboundURL.
Context `{!Unicode, !Environment}.
Import GoStrings.

Lemma dom_normalizeSymbols (queryParams : URL.Values) :
  dom (normalizeSymbols queryParams) = dom queryParams.
Proof.
  unfold normalizeSymbols.
  destruct (queryParams !! "symbols") as [[|value rest]|] eqn:Hsymbols;
    [done| |done].
  destruct (negb _); [|done]. destruct (json_Marshal _); [|done].
  unfold URL.Set_. by apply dom_insert_lookup_L.
Qed.

Lemma normalizePath_append_query path query :
  normalizePath (path +:+ String "?" query)
  = normalizePath path +:+ String "?" query.
Proof.
  unfold normalizePath, TrimPrefix.
  rewrite (HasPrefix_append_other path query "/api") by done.
  destruct (HasPrefix path "/api") eqn:Hapi.
  - rewrite drop_bytes_append by done.
    rewrite (HasPrefix_append_other _ query "/") by done.
    by destruct (HasPrefix _ "/").
  - rewrite (HasPrefix_append_other path query "/") by done.
    by destruct (HasPrefix path "/").
Qed.

Lemma reqURL_starts_with_base p r :
  HasPrefix (reqURL (upstreamRequest p r)) (binanceURL p +:+ "/") = true.
Proof.
  rewrite reqURL_upstreamRequest.
  pose proof (normalizePath_slash (Path r)) as Hslash.
  destruct (normalizePath (Path r)) as [|c path]; [done|].
  cbn [HasPrefix] in Hslash. apply andb_true_iff in Hslash as [Hc _].
  apply Ascii.eqb_eq in Hc as <-. rewrite append_cons.
  change (String "/" ?rest) with ("/" +:+ rest).
  rewrite <- append_assoc. apply HasPrefix_append_l.
Qed.

(** X1: the decoded path is put in the URL as it is, not escaped again.  A
    question mark in it therefore opens the query string: the request whose
    path ends with [?] and an encoded query, and which has no parameter of
    its own, is sent upstream exactly as the request with that query. *)
Theorem X1_question_mark_in_the_path_opens_the_query p r :
  Query r ≠ ∅ →
  upstreamRequest p
    {| Method := Method r;
       Path := Path r +:+ "?" +:+ URL.Encode (normalizeSymbols (Query r));
       Query := ∅; Header := Header r; Body := Body r |}
  = upstreamRequest p r.
Proof.
  intros Hquery. unfold upstreamRequest. cbn [Method Header Body]. f_equal.
  unfold targetURL. cbn [Path Query].
  assert (normalizeSymbols ∅ = ∅) as -> by done.
  rewrite map_size_empty, bool_decide_false by lia.
  rewrite bool_decide_true.
  - change ("?" +:+ ?q) with (String "?" q).
    by rewrite normalizePath_append_query, !append_assoc.
  - apply map_size_non_empty_iff in Hquery.
    rewrite <- size_dom, dom_normalizeSymbols, size_dom. lia.
Qed.




(** X5: with the encoder of encoding/json, the first [symbols] value of the
    normalized query always starts with a bracket, and normalising a second
    time changes nothing, whatever the query. *)
Theorem X5_normalizeSymbols_is_idempotent (queryParams : URL.Values) :
  (∀ l, json_Marshal l = JSON.Marshal l) →
  (∀ value rest,
     normalizeSymbols queryParams !! "symbols" = Some (value :: rest) →
     HasPrefix value "[" = true) ∧
  normalizeSymbols (normalizeSymbols queryParams) = normalizeSymbols queryParams.
Proof.
  intros Hgo.
  assert (∀ value rest,
            normalizeSymbols queryParams !! "symbols" = Some (value :: rest) →
            HasPrefix value "[" = true) as Hbracket.
  { intros value rest. unfold normalizeSymbols.
    destruct (queryParams !! "symbols") as [[|value' rest']|] eqn:Hsymbols;
      [by rewrite Hsymbols| |by rewrite Hsymbols].
    destruct (HasPrefix value' "[") eqn:Hvalue'; cbn [negb].
    - rewrite Hsymbols. by intros [= <- _].
    - rewrite Hgo. unfold JSON.Marshal, URL.Set_. rewrite lookup_insert_eq.
      intros [= <- _]. apply HasPrefix_stringArray. }
  split; [done|].
  unfold normalizeSymbols at 1.
  destruct (normalizeSymbols queryParams !! "symbols")
    as [[|value rest]|] eqn:Hsymbols; [done| |done].
  by rewrite (Hbracket _ _ eq_refl).
Qed.

(** X6: the list built from a [symbols] value of ASCII bytes.  The pieces
    between the commas, joined by commas again, are the value; no piece has
    a comma; and each element of the list is its piece without the white
    space at its two ends, the inside untouched. *)
Theorem X6_symbols_list_is_the_trimmed_pieces value :
  forall_bytes belowRuneSelf value = true →
  String.concat "," (Split value ",") = value ∧
  Forall (λ piece, lacks "," piece = true) (Split value ",") ∧
  Forall2 isTrimmed (Split value ",") (trimInPlace (Split value ",")).
Proof.
  intros Hascii. split; [apply concat_Split|]. split; [apply lacks_Split|].
  rewrite trimInPlace_fmap. apply Forall2_fmap_r, Forall_Forall2_diag.
  eapply Forall_impl; [by apply Forall_Split|].
  intros piece. apply TrimSpace_ascii.
Qed.

(** X7: a [symbols] value of printable ASCII bytes without a double quote,
    a backslash, [<], [>] or [&] needs no escape: the parameter becomes the
    trimmed pieces, each between double quotes, separated by commas and
    enclosed in brackets. *)
Theorem X7_plain_symbols_are_quoted_and_joined (queryParams : URL.Values)
    value rest :
  (∀ l, json_Marshal l = JSON.Marshal l) →
  queryParams !! "symbols" = Some (value :: rest) →
  HasPrefix value "[" = false →
  forall_bytes JSON.htmlSafe value = true →
  normalizeSymbols queryParams !! "symbols"
  = Some ["[" +:+ String.concat ","
                    (inQuotes <$> (TrimSpace <$> Split value ","))
              +:+ "]"].
Proof.
  intros Hgo Hsymbols Hbracket Hsafe. unfold normalizeSymbols.
  rewrite Hsymbols, Hbracket, trimInPlace_fmap, Hgo. cbn [negb].
  unfold JSON.Marshal, URL.Set_, JSON.stringArray. rewrite lookup_insert_eq.
  do 4 f_equal. f_equal. apply Forall_fmap_ext, Forall_fmap, Forall_forall.
  intros piece Hpiece. cbn. apply quote_htmlSafe.
  pose proof (Forall_Split _ _ "," Hsafe) as Hpieces.
  rewrite Forall_forall in Hpieces. specialize (Hpieces _ Hpiece).
  apply (isTrimmed_forall_bytes _ piece); [|done].
  apply TrimSpace_ascii. revert Hpieces. apply forall_bytes_impl, htmlSafe_below.
Qed.

End OutboundURL.

(** ** The forwarded request headers (lines 142-161) *)

Section Forwarded.
Context `{!Unicode, !Environment}.
Import GoStrings.

Lemma copyRequestHeader_lookup_ne h entry k :
  MIME.CanonicalMIMEHeaderKey entry.1 ≠ k → k ≠ "Accept-Encoding" →
  copyRequestHeader h entry !! k = h !! k.
Proof.
  destruct entry as [key values]. cbn [fst]. intros Hne Hae.
  unfold copyRequestHeader. destruct (_ || _); [done|].
  destruct (String.eqb _ "accept-encoding").
  - unfold HTTP.Set_. by rewrite lookup_insert_ne.
  - by apply foldl_Add_lookup_ne.
Qed.

Lemma foldl_copyRequestHeader_lookup_ne entries h k :
  (∀ entry, entry ∈ entries → MIME.CanonicalMIMEHeaderKey entry.1 ≠ k) →
  k ≠ "Accept-Encoding" →
  foldl copyRequestHeader h entries !! k = h !! k.
Proof.
  intros Hall Hae. revert h Hall.
  induction entries as [|entry entries IH]; intros h Hall; [done|].
  cbn [foldl]. rewrite IH.
  - apply copyRequestHeader_lookup_ne; [|done]. apply Hall. by left.
  - intros entry' Hin. apply Hall. by right.
Qed.

(** The values of one name, once the loop has met its entry. *)
Lemma foldl_copyRequestHeader_entry entries h key values :
  NoDup entries.*1 →
  (∀ entry, entry ∈ entries → MIME.CanonicalMIMEHeaderKey entry.1 = entry.1) →
  (key, values) ∈ entries →
  ToLower key ∉ notForwarded → ToLower key ≠ "accept-encoding" →
  foldl copyRequestHeader h entries !! key
  = match values with
    | [] => h !! key
    | _ :: _ => Some (default [] (h !! key) ++ values)
    end.
Proof.
  intros Hnodup Hcanon Hin Hskip Hae.
  assert (key ≠ "Accept-Encoding") as Hname.
  { intros ->. by apply Hae. }
  apply String.eqb_neq in Hae as Hae'.
  revert h Hnodup Hcanon Hin.
  induction entries as [|entry entries IH]; intros h Hnodup Hcanon Hin.
  { by apply elem_of_nil in Hin. }
  rewrite fmap_cons in Hnodup. apply NoDup_cons in Hnodup as [Hfresh Hnodup].
  cbn [foldl]. apply elem_of_cons in Hin as [<- | Hin].
  - cbn [fst] in Hfresh. rewrite foldl_copyRequestHeader_lookup_ne; [| |done].
    + unfold copyRequestHeader.
      destruct (_ || _) eqn:Hs; [by apply notForwarded_spec in Hs|].
      rewrite Hae'.
      pose proof (Hcanon (key, values)) as Hkey. cbn [fst] in Hkey.
      destruct values as [|value values]; [done|].
      pose proof (foldl_Add_lookup key (value :: values) h) as Hlookup.
      rewrite Hkey in Hlookup by left. by apply Hlookup.
    + intros entry Hentry. rewrite Hcanon by by right.
      intros Heq. apply Hfresh. rewrite <- Heq.
      by apply list_elem_of_fmap_2.
  - rewrite IH; [|done| |done].
    + rewrite copyRequestHeader_lookup_ne; [done| |done].
      rewrite Hcanon by by left. intros Heq. apply Hfresh.
      rewrite Heq. by apply (list_elem_of_fmap_2 fst _ (key, values)).
    + intros entry' Hentry'. apply Hcanon. by right.
Qed.

Lemma canonicalKeys_range site h :
  canonicalKeys h →
  ∀ entry, entry ∈ range site h → MIME.CanonicalMIMEHeaderKey entry.1 = entry.1.
Proof.
  intros Hcanon [key values] Hin%elem_of_range. apply Hcanon. by exists values.
Qed.

(** X8: a header of the inbound request that is neither one of the three
    that are not forwarded, nor [Accept-Encoding], nor [User-Agent], is on
    the outbound request with all its values, in their order. *)
Theorem X8_other_request_headers_are_forwarded p r key values :
  canonicalKeys (Header r) →
  Header r !! key = Some values → values ≠ [] →
  ToLower key ∉ notForwarded → ToLower key ≠ "accept-encoding" →
  key ≠ "User-Agent" →
  reqHeader (upstreamRequest p r) !! key = Some values.
Proof.
  intros Hcanon Hkey Hvalues Hskip Hae Hua.
  cbn [upstreamRequest reqHeader]. unfold upstreamHeader.
  rewrite ensureUserAgent_lookup_ne by done.
  rewrite (foldl_copyRequestHeader_entry _ _ key values);
    [|apply NoDup_range|by apply canonicalKeys_range|by apply elem_of_range
     |done..].
  by destruct values.
Qed.

(** X9: the [User-Agent] of the outbound request.  The values of the client
    are kept when the first of them is not empty; otherwise, and when the
    client sent none, the header is [Binance-Proxy/1.0] alone. *)
Theorem X9_User_Agent_is_kept_or_supplied p r :
  canonicalKeys (Header r) →
  reqHeader (upstreamRequest p r) !! "User-Agent"
  = Some match Header r !! "User-Agent" with
         | Some (value :: rest) =>
             if String.eqb value "" then ["Binance-Proxy/1.0"]
             else value :: rest
         | _ => ["Binance-Proxy/1.0"]
         end.
Proof.
  intros Hcanon. cbn [upstreamRequest reqHeader]. unfold upstreamHeader.
  set (copied := foldl _ _ _).
  assert (copied !! "User-Agent"
          = match Header r !! "User-Agent" with
            | Some (value :: rest) => Some (value :: rest)
            | _ => None
            end) as Hcopied.
  { destruct (Header r !! "User-Agent") as [values|] eqn:Hua.
    - unfold copied.
      rewrite (foldl_copyRequestHeader_entry _ _ "User-Agent" values);
        [|apply NoDup_range|by apply canonicalKeys_range
         |by apply elem_of_range
         |by intros Hin%notForwarded_spec|by vm_compute].
      by destruct values.
    - unfold copied. rewrite foldl_copyRequestHeader_lookup_ne; [done| |done].
      intros [key values] Hin. pose proof Hin as Hin'%elem_of_range.
      rewrite (canonicalKeys_range _ _ Hcanon _ Hin). cbn [fst].
      intros ->. by rewrite Hua in Hin'. }
  unfold ensureUserAgent, HTTP.Get.
  change (MIME.CanonicalMIMEHeaderKey "User-Agent") with "User-Agent".
  rewrite Hcopied. unfold HTTP.Set_.
  destruct (Header r !! "User-Agent") as [[|value rest]|];
    cbn [String.eqb]; rewrite ?lookup_insert_eq; try done.
  destruct (String.eqb value ""); [by rewrite lookup_insert_eq|done].
Qed.

Lemma copyRequestHeader_keys h entry k :
  is_Some (copyRequestHeader h entry !! k) →
  is_Some (h !! k) ∨
  (k = "Accept-Encoding" ∧ ToLower entry.1 = "accept-encoding") ∨
  (MIME.CanonicalMIMEHeaderKey entry.1 = k ∧ entry.2 ≠ [] ∧
   ToLower entry.1 ∉ notForwarded).
Proof.
  destruct entry as [key values]. cbn [fst snd]. unfold copyRequestHeader.
  destruct (_ || _) eqn:Hskip; [by left|].
  destruct (String.eqb _ "accept-encoding") eqn:Hae.
  - apply String.eqb_eq in Hae. unfold HTTP.Set_.
    destruct (decide (k = "Accept-Encoding")) as [->|Hne].
    + right. by left.
    + rewrite lookup_insert_ne by done. by left.
  - destruct (decide (MIME.CanonicalMIMEHeaderKey key = k)) as [Heq|Hne].
    + destruct values as [|value values]; [by left|].
      intros _. right. right. split; [done|]. split; [done|].
      rewrite <- notForwarded_spec. by rewrite Hskip.
    + rewrite foldl_Add_lookup_ne by done. by left.
Qed.

Lemma foldl_copyRequestHeader_keys entries h k :
  is_Some (foldl copyRequestHeader h entries !! k) →
  is_Some (h !! k) ∨
  (k = "Accept-Encoding" ∧
   ∃ entry, entry ∈ entries ∧ ToLower entry.1 = "accept-encoding") ∨
  (∃ entry, entry ∈ entries ∧ MIME.CanonicalMIMEHeaderKey entry.1 = k ∧
            entry.2 ≠ [] ∧ ToLower entry.1 ∉ notForwarded).
Proof.
  revert h. induction entries as [|entry entries IH]; intros h; [by left|].
  cbn [foldl]. intros Hsome. apply IH in Hsome
    as [Hh|[[-> (entry' & Hin & Hae)]|(entry' & Hin & Hrest)]].
  - apply copyRequestHeader_keys in Hh as [Hh|[[-> Hae]|Hcopied]].
    + by left.
    + right. left. split; [done|]. exists entry. split; [by left|done].
    + right. right. exists entry. split; [by left|done].
  - right. left. split; [done|]. exists entry'. split; [by right|done].
  - right. right. exists entry'. split; [by right|done].
Qed.

(** X10: the proxy puts no header of its own on the outbound request but
    [User-Agent].  Any other header there is [Accept-Encoding], and then the
    client sent one, or the canonical name of a header of the client that is
    not one of the three left behind. *)
Theorem X10_outbound_headers_come_from_the_inbound_request p r k :
  is_Some (reqHeader (upstreamRequest p r) !! k) →
  k = "User-Agent" ∨
  (k = "Accept-Encoding" ∧
   ∃ key, is_Some (Header r !! key) ∧ ToLower key = "accept-encoding") ∨
  (∃ key values,
     Header r !! key = Some values ∧ values ≠ [] ∧
     MIME.CanonicalMIMEHeaderKey key = k ∧ ToLower key ∉ notForwarded).
Proof.
  cbn [upstreamRequest reqHeader]. unfold upstreamHeader.
  destruct (decide (k = "User-Agent")) as [->|Hua]; [by left|].
  rewrite ensureUserAgent_lookup_ne by done.
  intros Hsome. apply foldl_copyRequestHeader_keys in Hsome
    as [Hempty|[[-> ([key values] & Hin & Hae)]
               |([key values] & Hin & Hk & Hvalues & Hskip)]].
  - rewrite lookup_empty in Hempty. by destruct Hempty.
  - right. left. split; [done|]. exists key. split; [|done].
    exists values. by apply elem_of_range in Hin.
  - right. right. exists key, values. by apply elem_of_range in Hin.
Qed.

Lemma someValueEach_copyRequestHeader h entry :
  someValueEach h → someValueEach (copyRequestHeader h entry).
Proof.
  destruct entry as [key values]. intros Hh. unfold copyRequestHeader.
  destruct (_ || _); [done|].
  destruct (String.eqb _ "accept-encoding"); [by apply someValueEach_Set|].
  revert h Hh. induction values as [|v values IH]; intros h Hh; [done|].
  cbn [foldl]. by apply IH, someValueEach_Add.
Qed.

(** X11: whatever the spelling of the names the client sent, every header
    of the outbound request has a canonical name and at least one value. *)
Theorem X11_outbound_headers_are_well_formed p r :
  someValueEach (reqHeader (upstreamRequest p r)) ∧
  canonicalKeys (reqHeader (upstreamRequest p r)).
Proof.
  assert (someValueEach (reqHeader (upstreamRequest p r))) as Hshape.
  { cbn [upstreamRequest reqHeader]. unfold upstreamHeader, ensureUserAgent.
    assert (someValueEach
              (foldl copyRequestHeader ∅ (range RequestHeaders (Header r))))
      as Hcopied.
    { generalize (range RequestHeaders (Header r)). intros entries.
      assert (someValueEach (∅ : HTTP.Header)) as Hempty.
      { intros k values. by rewrite lookup_empty. }
      revert Hempty. generalize (∅ : HTTP.Header).
      induction entries as [|entry entries IH]; intros h Hh; [done|].
      cbn [foldl]. by apply IH, someValueEach_copyRequestHeader. }
    destruct (String.eqb _ ""); [by apply someValueEach_Set|done]. }
  split; [done|]. intros k [values Hk]. by apply (Hshape _ _ Hk).
Qed.

End Forwarded.

(** ** The errors of the proxy itself (lines 131-139 and 177-186) *)

Lemma Writer_Header_JSON_ne code obj c k :
  k ≠ "Content-Type" →
  Gin.Writer_Header (Gin.JSON code obj c) !! k = Gin.Writer_Header c !! k.
Proof.
  intros Hne. unfold Gin.JSON, Gin.render. cbn [Gin.Writer_Header Gin.withHeader].
  by rewrite writeContentType_lookup_ne, Writer_Header_Status.
Qed.

Lemma isErrorBody_errorBody code msg message :
  isErrorBody (Gin.JSONObject (errorBody code msg message)) code msg message.
Proof.
  exists (errorBody code msg message). split; [done|]. unfold errorBody.
  split; [|by simplify_map_eq].
  rewrite !dom_insert_L, dom_empty_L. set_solver.
Qed.

Lemma carriesCORS_afterMiddleware r :
  carriesCORS (Gin.Writer_Header (afterMiddleware r)).
Proof. by vm_compute. Qed.

Lemma carriesCORS_JSON code obj c :
  carriesCORS (Gin.Writer_Header c) →
  carriesCORS (Gin.Writer_Header (Gin.JSON code obj c)).
Proof.
  unfold carriesCORS. by rewrite !Writer_Header_JSON_ne by done.
Qed.

Section Errors.
Context `{!Unicode, !Environment}.
Import GoStrings.

Lemma serveNoRoute_NewRequest p r err :
  Method r ≠ "OPTIONS" →
  http_NewRequest (Method r) (targetURL p r) = Some err →
  serveNoRoute p r
  = Gin.JSON HTTP.StatusInternalServerError
      (errorBody (-1000) ("Erro ao criar requisição: " +:+ err)
         ("Erro ao criar requisição: " +:+ err)) (afterMiddleware r).
Proof.
  intros Hm%String.eqb_neq Hnew.
  rewrite serveNoRoute_ProxyRequest by done. unfold ProxyRequest.
  by rewrite Request_afterMiddleware, Hm, Hnew.
Qed.

Lemma serveNoRoute_ReadAll p r resp err :
  Method r ≠ "OPTIONS" →
  http_NewRequest (Method r) (targetURL p r) = None →
  client_Do (upstreamRequest p r) = inl resp →
  respBody resp = inr err →
  serveNoRoute p r
  = Gin.JSON HTTP.StatusInternalServerError
      (errorBody (-1001) "Erro ao ler resposta da Binance"
         ("Erro ao ler resposta: " +:+ err))
      (Gin.dispatched (upstreamRequest p r) (afterMiddleware r)).
Proof.
  intros Hm%String.eqb_neq Hnew Hdo Hbody.
  rewrite serveNoRoute_ProxyRequest by done. unfold ProxyRequest.
  rewrite Request_afterMiddleware, Hm, Hnew. cbn zeta. by rewrite Hdo, Hbody.
Qed.

(** X12: when [http.NewRequest] refuses the method or the URL, nothing is
    sent upstream and the answer is 500 with the JSON object
    [{code: -1000, msg, message}], both texts naming the error. *)
Theorem X12_rejected_request_is_an_internal_error p r err :
  Method r ≠ "OPTIONS" →
  http_NewRequest (Method r) (targetURL p r) = Some err →
  Gin.Dispatched (serveNoRoute p r) = [] ∧
  Gin.Writer_Status (serveNoRoute p r) = 500%Z ∧
  isErrorBody (Gin.Writer_Body (serveNoRoute p r)) (-1000)
    ("Erro ao criar requisição: " +:+ err)
    ("Erro ao criar requisição: " +:+ err) ∧
  Gin.Writer_Header (serveNoRoute p r) !! "Content-Type"
    = Some ["application/json; charset=utf-8"].
Proof.
  intros Hm Hnew. rewrite (serveNoRoute_NewRequest _ _ _ Hm Hnew).
  split; [done|]. split; [done|]. split; [apply isErrorBody_errorBody|done].
Qed.

(** X13: when the upstream answers and its body cannot be read, the answer
    is 500 with the JSON object [{code: -1001, msg, message}], after the one
    round trip; the status and the headers of the upstream are not relayed:
    the headers are those of the middleware and the JSON content type. *)
Theorem X13_unread_body_is_an_internal_error p r resp err :
  Method r ≠ "OPTIONS" →
  http_NewRequest (Method r) (targetURL p r) = None →
  client_Do (upstreamRequest p r) = inl resp →
  respBody resp = inr err →
  Gin.Dispatched (serveNoRoute p r) = [upstreamRequest p r] ∧
  Gin.Writer_Status (serveNoRoute p r) = 500%Z ∧
  isErrorBody (Gin.Writer_Body (serveNoRoute p r)) (-1001)
    "Erro ao ler resposta da Binance" ("Erro ao ler resposta: " +:+ err) ∧
  Gin.Writer_Header (serveNoRoute p r)
  = <["Content-Type" := ["application/json; charset=utf-8"]]>
      (Gin.Writer_Header (afterMiddleware r)).
Proof.
  intros Hm Hnew Hdo Hbody.
  rewrite (serveNoRoute_ReadAll _ _ _ _ Hm Hnew Hdo Hbody).
  split; [done|]. split; [done|]. split; [apply isErrorBody_errorBody|done].
Qed.

End Errors.

(** ** The relayed answer (lines 192-280) *)

Lemma writeContentType_present value (h : HTTP.Header) v vs :
  h !! "Content-Type" = Some (v :: vs) → Gin.writeContentType value h = h.
Proof. intros Hh. unfold Gin.writeContentType. by rewrite Hh. Qed.

(** The last call of [c.Header] for a name decides. *)
Lemma foldl_Header_last key values c v :
  last values = Some v →
  Gin.Writer_Header (foldl (λ c value, Gin.Header key value c) c values)
    !! MIME.CanonicalMIMEHeaderKey key
  = if String.eqb v "" then None else Some [v].
Proof.
  intros [values' ->]%last_Some. rewrite foldl_app. cbn [foldl].
  rewrite Writer_Header_Header.
  destruct (String.eqb v ""); unfold HTTP.Del, HTTP.Set_.
  - apply lookup_delete_eq.
  - apply lookup_insert_eq.
Qed.

Lemma Writer_Header_afterMiddleware_other r k :
  k ∉ setByRelay →
  Gin.Writer_Header (afterMiddleware r) !! k
  = if decide (k = "Access-Control-Max-Age") then Some ["3600"] else None.
Proof.
  unfold setByRelay. rewrite !not_elem_of_cons.
  intros (_ & Horigin & Hmethods & Hheaders & _).
  unfold afterMiddleware. case_decide as Hage.
  - subst k. by apply (Header_lookup_eq "Access-Control-Max-Age").
  - by rewrite !Header_lookup_ne by done.
Qed.

Section Relayed.
Context `{!Unicode, !Environment}.
Import GoStrings.

Lemma inferContentType_nonempty resp body : inferContentType resp body ≠ "".
Proof.
  unfold inferContentType.
  destruct (String.eqb _ "") eqn:Hct; [|by apply String.eqb_neq].
  case_bool_decide; [|done]. by destruct (json_Unmarshal_ok body).
Qed.

(** The headers set after the loop. *)
Lemma relay_sets resp body c :
  carriesCORS (Gin.Writer_Header (relay resp body c)) ∧
  Gin.Writer_Header (relay resp body c) !! "Content-Type"
  = Some [inferContentType resp
            (bodyToSend (HTTP.Get "Content-Encoding" (respHeader resp)) body)].
Proof.
  unfold relay. cbn zeta. unfold Gin.Data, Gin.render.
  cbn [Gin.Writer_Header Gin.withHeader].
  set (contentEncoding := HTTP.Get "Content-Encoding" (respHeader resp)).
  set (sent := bodyToSend contentEncoding body).
  set (copied := foldl _ c _).
  pose proof (inferContentType_nonempty resp sent) as Hct.
  assert (∀ c' : Gin.Context,
            Gin.Writer_Header
              (Gin.Header "Access-Control-Allow-Headers"
                 "Content-Type, Authorization"
                 (Gin.Header "Access-Control-Allow-Methods"
                    "GET, POST, PUT, DELETE, OPTIONS"
                    (Gin.Header "Access-Control-Allow-Origin" "*"
                       (Gin.Header "Content-Type" (inferContentType resp sent)
                          c')))) !! "Content-Type"
            = Some [inferContentType resp sent]) as Htype.
  { intros c'. rewrite !Header_lookup_ne by done.
    by apply (Header_lookup_eq "Content-Type"). }
  split; [repeat split|].
  - rewrite writeContentType_lookup_ne, Writer_Header_Status by done.
    match goal with |- context [if ?b then _ else _] => destruct b end;
      rewrite ?Header_lookup_ne by done;
      by apply (Header_lookup_eq "Access-Control-Allow-Origin").
  - rewrite writeContentType_lookup_ne, Writer_Header_Status by done.
    match goal with |- context [if ?b then _ else _] => destruct b end;
      rewrite ?Header_lookup_ne by done;
      by apply (Header_lookup_eq "Access-Control-Allow-Methods").
  - rewrite writeContentType_lookup_ne, Writer_Header_Status by done.
    match goal with |- context [if ?b then _ else _] => destruct b end;
      rewrite ?Header_lookup_ne by done;
      by apply (Header_lookup_eq "Access-Control-Allow-Headers").
  - rewrite Writer_Header_Status.
    match goal with |- context [if ?b then _ else _] => destruct b end.
    + erewrite writeContentType_present.
      * rewrite Header_lookup_ne by done. apply Htype.
      * rewrite Header_lookup_ne by done. apply Htype.
    + erewrite writeContentType_present; apply Htype.
Qed.

(** A name that [relay] does not set itself comes out of it as the loop
    left it. *)
Lemma relay_lookup_other resp body c k :
  k ∉ setByRelay →
  Gin.Writer_Header (relay resp body c) !! k
  = Gin.Writer_Header
      (foldl (copyResponseHeader
                (HTTP.Get "Content-Encoding" (respHeader resp)))
         c (range ResponseHeaders (respHeader resp))) !! k.
Proof.
  unfold setByRelay. rewrite !not_elem_of_cons.
  intros (Htype & Horigin & Hmethods & Hheaders & Hlength & _).
  unfold relay. cbn zeta. unfold Gin.Data, Gin.render.
  cbn [Gin.Writer_Header Gin.withHeader].
  rewrite writeContentType_lookup_ne, Writer_Header_Status by done.
  match goal with |- context [if ?b then _ else _] => destruct b end;
    by rewrite !Header_lookup_ne by done.
Qed.

(** The loop, entry by entry: the values of one name, when it is not one
    of the two the loop may skip. *)
Lemma foldl_copyResponseHeader_last contentEncoding entries c key values v :
  NoDup entries.*1 →
  (∀ entry, entry ∈ entries → MIME.CanonicalMIMEHeaderKey entry.1 = entry.1) →
  (key, values) ∈ entries → last values = Some v →
  ToLower key ≠ "content-encoding" → ToLower key ≠ "content-length" →
  Gin.Writer_Header (foldl (copyResponseHeader contentEncoding) c entries)
    !! key = if String.eqb v "" then None else Some [v].
Proof.
  intros Hnodup Hcanon Hin Hlast Hce%String.eqb_neq Hcl%String.eqb_neq.
  revert c Hnodup Hcanon Hin.
  induction entries as [|entry entries IH]; intros c Hnodup Hcanon Hin.
  { by apply elem_of_nil in Hin. }
  rewrite fmap_cons in Hnodup. apply NoDup_cons in Hnodup as [Hfresh Hnodup].
  cbn [foldl]. apply elem_of_cons in Hin as [<- | Hin].
  - cbn [fst] in Hfresh. rewrite foldl_copyResponseHeader_lookup_ne.
    + unfold copyResponseHeader. rewrite Hce, Hcl. cbn [andb].
      pose proof (foldl_Header_last key values c v Hlast) as Hlookup.
      pose proof (Hcanon (key, values)) as Hkey. cbn [fst] in Hkey.
      by rewrite Hkey in Hlookup by left.
    + intros entry Hentry. rewrite Hcanon by by right.
      intros Heq. apply Hfresh. rewrite <- Heq.
      by apply list_elem_of_fmap_2.
  - apply IH; [done| |done].
    intros entry' Hentry'. apply Hcanon. by right.
Qed.


(** X15: the relayed answer has exactly one [Content-Type] value.  It is the
    first one of the upstream when that is not empty; otherwise it is
    [application/json] when the body sent is empty or is valid JSON, and
    [text/plain; charset=utf-8] when it is not. *)
Theorem X15_relayed_Content_Type p r resp body :
  upstreamAnswers p r resp body →
  let sent := bodyToSend (HTTP.Get "Content-Encoding" (respHeader resp)) body in
  let upstreamType := HTTP.Get "Content-Type" (respHeader resp) in
  Gin.Writer_Header (serveNoRoute p r) !! "Content-Type"
  = Some [if String.eqb upstreamType "" then
            match sent with
            | [] => "application/json"
            | _ :: _ =>
                if json_Unmarshal_ok sent then "application/json"
                else "text/plain; charset=utf-8"
            end
          else upstreamType].
Proof.
  intros Hanswers. cbn zeta. rewrite (serveNoRoute_relay _ _ _ _ Hanswers).
  destruct (relay_sets resp body
              (Gin.dispatched (upstreamRequest p r) (afterMiddleware r)))
    as [_ ->].
  unfold inferContentType. destruct (String.eqb _ ""); [|done].
  by destruct (bodyToSend _ body).
Qed.

(** X16: every answer to a request that matched no route, the preflight
    answer, the three errors of the proxy and the relayed answer alike,
    carries the three CORS headers with the values of the proxy, whatever
    the upstream sent under these names. *)
Theorem X16_every_answer_carries_the_CORS_headers p r :
  carriesCORS (Gin.Writer_Header (serveNoRoute p r)).
Proof.
  destruct (String.eqb (Method r) "OPTIONS") eqn:Hm.
  { rewrite serveNoRoute_OPTIONS by done. unfold Gin.AbortWithStatus.
    cbn [Gin.Abort Gin.Writer_Header]. rewrite Writer_Header_Status.
    apply carriesCORS_afterMiddleware. }
  rewrite serveNoRoute_ProxyRequest by done. unfold ProxyRequest.
  rewrite Request_afterMiddleware, Hm.
  destruct (http_NewRequest _ _).
  { apply carriesCORS_JSON, carriesCORS_afterMiddleware. }
  cbn zeta. destruct (client_Do _) as [resp|err].
  - destruct (respBody resp) as [body|err].
    + apply relay_sets.
    + apply carriesCORS_JSON, carriesCORS_afterMiddleware.
  - apply carriesCORS_JSON, carriesCORS_afterMiddleware.
Qed.

(** X17: of a header that the upstream sends several times, only the last
    value is relayed; and a header whose last value is empty is not relayed
    at all.  This holds for every header but those that [relay] sets itself
    and the two it may skip. *)
Theorem X17_repeated_upstream_header_keeps_its_last_value
    p r resp body key values v :
  upstreamAnswers p r resp body →
  canonicalKeys (respHeader resp) →
  respHeader resp !! key = Some values →
  last values = Some v →
  key ∉ setByRelay →
  ToLower key ≠ "content-encoding" → ToLower key ≠ "content-length" →
  Gin.Writer_Header (serveNoRoute p r) !! key
  = if String.eqb v "" then None else Some [v].
Proof.
  intros Hanswers Hcanon Hkey Hlast Hset Hce Hcl.
  rewrite (serveNoRoute_relay _ _ _ _ Hanswers), relay_lookup_other by done.
  apply (foldl_copyResponseHeader_last _ _ _ key values);
    [apply NoDup_range| |by apply elem_of_range|done..].
  intros [key' values'] Hin%elem_of_range. apply Hcanon. by exists values'.
Qed.

(** X18: the relay adds no header of its own besides the five it sets after
    the loop: a name that the upstream does not send, and that is not one of
    the five, is absent from the answer, except [Access-Control-Max-Age],
    which has the value of the middleware. *)
Theorem X18_relay_adds_no_other_header p r resp body k :
  upstreamAnswers p r resp body →
  (∀ key, is_Some (respHeader resp !! key) →
          MIME.CanonicalMIMEHeaderKey key ≠ k) →
  k ∉ setByRelay →
  Gin.Writer_Header (serveNoRoute p r) !! k
  = if decide (k = "Access-Control-Max-Age") then Some ["3600"] else None.
Proof.
  intros Hanswers Habsent Hset.
  rewrite (serveNoRoute_relay _ _ _ _ Hanswers), relay_lookup_other by done.
  rewrite foldl_copyResponseHeader_lookup_ne.
  - by apply Writer_Header_afterMiddleware_other.
  - intros [key values] Hin%elem_of_range. apply Habsent. by exists values.
Qed.

Lemma oneValueEach_copyResponseHeader contentEncoding c entry :
  oneValueEach (Gin.Writer_Header c) →
  oneValueEach (Gin.Writer_Header (copyResponseHeader contentEncoding c entry)).
Proof.
  destruct entry as [key values]. intros Hc. unfold copyResponseHeader.
  destruct (_ && _); [done|]. destruct (_ && _); [done|].
  revert c Hc. induction values as [|v values IH]; intros c Hc; [done|].
  cbn [foldl]. by apply IH, oneValueEach_Header.
Qed.

Lemma oneValueEach_relay resp body c :
  oneValueEach (Gin.Writer_Header c) →
  oneValueEach (Gin.Writer_Header (relay resp body c)).
Proof.
  intros Hc. unfold relay. cbn zeta. unfold Gin.Data.
  apply oneValueEach_render; [apply inferContentType_nonempty|].
  assert (oneValueEach
            (Gin.Writer_Header
               (foldl (copyResponseHeader
                         (HTTP.Get "Content-Encoding" (respHeader resp)))
                  c (range ResponseHeaders (respHeader resp))))) as Hcopied.
  { generalize (range ResponseHeaders (respHeader resp)). intros entries.
    revert c Hc. induction entries as [|entry entries IH]; intros c Hc; [done|].
    cbn [foldl]. by apply IH, oneValueEach_copyResponseHeader. }
  match goal with |- context [if ?b then _ else _] => destruct b end;
    by repeat apply oneValueEach_Header.
Qed.

(** X19: every header of every answer to a request that matched no route
    has a canonical name and exactly one value, which is not empty: the
    proxy never answers with a header of several values, whatever the
    upstream sent. *)
Theorem X19_every_answer_header_has_one_value p r :
  oneValueEach (Gin.Writer_Header (serveNoRoute p r)).
Proof.
  destruct (String.eqb (Method r) "OPTIONS") eqn:Hm.
  { rewrite serveNoRoute_OPTIONS by done. unfold Gin.AbortWithStatus.
    cbn [Gin.Abort Gin.Writer_Header]. rewrite Writer_Header_Status.
    apply oneValueEach_afterMiddleware. }
  rewrite serveNoRoute_ProxyRequest by done. unfold ProxyRequest.
  rewrite Request_afterMiddleware, Hm.
  destruct (http_NewRequest _ _).
  { by apply oneValueEach_render, oneValueEach_afterMiddleware. }
  cbn zeta. destruct (client_Do _) as [resp|err].
  - destruct (respBody resp) as [body|err].
    + apply oneValueEach_relay, oneValueEach_afterMiddleware.
    + by apply oneValueEach_render, oneValueEach_afterMiddleware.
  - by apply oneValueEach_render, oneValueEach_afterMiddleware.
Qed.

(** X20: a relayed answer always has a [Content-Length]; when the upstream
    sent none, it is the number of bytes of the body sent, in decimal. *)
Theorem X20_relayed_answer_has_a_Content_Length p r resp body :
  upstreamAnswers p r resp body →
  HTTP.Get "Content-Length" (Gin.Writer_Header (serveNoRoute p r)) ≠ "" ∧
  ((∀ key, is_Some (respHeader resp !! key) →
           MIME.CanonicalMIMEHeaderKey key ≠ "Content-Length") →
   Gin.Writer_Header (serveNoRoute p r) !! "Content-Length"
   = Some [pretty (length (bodyToSend
                             (HTTP.Get "Content-Encoding" (respHeader resp))
                             body))]).
Proof.
  intros Hanswers. rewrite (serveNoRoute_relay _ _ _ _ Hanswers).
  assert (∀ h : HTTP.Header, HTTP.Get "Content-Length" h
            = match h !! "Content-Length" with
              | Some (v :: _) => v
              | _ => ""
              end) as HGet by done.
  split.
  - rewrite HGet, relay_Content_Length. cbn zeta.
    destruct (String.eqb (HTTP.Get "Content-Encoding" _) "gzip");
      cbn [orb]; [apply pretty_nat_nonempty|].
    destruct (String.eqb _ "") eqn:Hlen; [apply pretty_nat_nonempty|].
    apply String.eqb_neq in Hlen. by rewrite <- HGet.
  - intros Habsent. rewrite relay_Content_Length. cbn zeta.
    rewrite HGet, foldl_copyResponseHeader_lookup_ne.
    + change (Gin.Writer_Header (Gin.dispatched ?req ?c))
        with (Gin.Writer_Header c).
      rewrite Writer_Header_afterMiddleware by (right; by vm_compute).
      by rewrite orb_true_r.
    + intros [key values] Hin%elem_of_range. apply Habsent. by exists values.
Qed.

(** Without gzip the loop skips nothing: the last value of every name
    decides. *)
Lemma foldl_copyResponseHeader_last_plain contentEncoding entries c key values v :
  contentEncoding ≠ "gzip" →
  NoDup entries.*1 →
  (∀ entry, entry ∈ entries → MIME.CanonicalMIMEHeaderKey entry.1 = entry.1) →
  (key, values) ∈ entries → last values = Some v →
  Gin.Writer_Header (foldl (copyResponseHeader contentEncoding) c entries)
    !! key = if String.eqb v "" then None else Some [v].
Proof.
  intros Hce%String.eqb_neq Hnodup Hcanon Hin Hlast.
  revert c Hnodup Hcanon Hin.
  induction entries as [|entry entries IH]; intros c Hnodup Hcanon Hin.
  { by apply elem_of_nil in Hin. }
  rewrite fmap_cons in Hnodup. apply NoDup_cons in Hnodup as [Hfresh Hnodup].
  cbn [foldl]. apply elem_of_cons in Hin as [<- | Hin].
  - cbn [fst] in Hfresh. rewrite foldl_copyResponseHeader_lookup_ne.
    + unfold copyResponseHeader. rewrite Hce, !andb_false_r.
      pose proof (foldl_Header_last key values c v Hlast) as Hlookup.
      pose proof (Hcanon (key, values)) as Hkey. cbn [fst] in Hkey.
      by rewrite Hkey in Hlookup by left.
    + intros entry Hentry. rewrite Hcanon by by right.
      intros Heq. apply Hfresh. rewrite <- Heq.
      by apply list_elem_of_fmap_2.
  - apply IH; [done| |done].
    intros entry' Hentry'. apply Hcanon. by right.
Qed.

(** A name without a value leaves no trace. *)
Lemma foldl_copyResponseHeader_no_value contentEncoding entries c key :
  NoDup entries.*1 →
  (∀ entry, entry ∈ entries → MIME.CanonicalMIMEHeaderKey entry.1 = entry.1) →
  (key, []) ∈ entries →
  Gin.Writer_Header (foldl (copyResponseHeader contentEncoding) c entries)
    !! key = Gin.Writer_Header c !! key.
Proof.
  revert c. induction entries as [|entry entries IH]; intros c Hnodup Hcanon Hin.
  { by apply elem_of_nil in Hin. }
  rewrite fmap_cons in Hnodup. apply NoDup_cons in Hnodup as [Hfresh Hnodup].
  cbn [foldl]. apply elem_of_cons in Hin as [<- | Hin].
  - cbn [fst] in Hfresh. rewrite foldl_copyResponseHeader_lookup_ne.
    + unfold copyResponseHeader. by repeat destruct (_ && _).
    + intros entry Hentry. rewrite Hcanon by by right.
      intros Heq. apply Hfresh. rewrite <- Heq.
      by apply list_elem_of_fmap_2.
  - rewrite IH; [|done| |done].
    + apply copyResponseHeader_lookup_ne.
      rewrite Hcanon by by left. intros Heq. apply Hfresh.
      rewrite Heq. by apply (list_elem_of_fmap_2 fst _ (key, [])).
    + intros entry' Hentry'. apply Hcanon. by right.
Qed.

(** X21: when the [Content-Length] of the upstream, if it sends one, is
    the number of bytes of its body, the [Content-Length] of the relayed
    answer is the number of bytes of the body sent, decompressed or not. *)
Theorem X21_Content_Length_counts_the_bytes_sent p r resp body :
  upstreamAnswers p r resp body →
  canonicalKeys (respHeader resp) →
  (∀ values n,
     respHeader resp !! "Content-Length" = Some values → n ∈ values →
     n = pretty (length body)) →
  Gin.Writer_Header (serveNoRoute p r) !! "Content-Length"
  = Some [pretty (length (bodyToSend
                            (HTTP.Get "Content-Encoding" (respHeader resp))
                            body))].
Proof.
  intros Hanswers Hcanon Hlength.
  rewrite (serveNoRoute_relay _ _ _ _ Hanswers), relay_Content_Length.
  cbn zeta.
  destruct (String.eqb (HTTP.Get "Content-Encoding" (respHeader resp)) "gzip")
    eqn:Hce; [done|].
  apply String.eqb_neq in Hce. rewrite bodyToSend_other by done. cbn [orb].
  set (copied := Gin.Writer_Header (foldl _ _ _)).
  pose proof (pretty_nat_nonempty (length body)) as Hne%String.eqb_neq.
  assert (copied !! "Content-Length" = None ∨
          copied !! "Content-Length" = Some [pretty (length body)]) as Hcopied.
  { unfold copied.
    destruct (respHeader resp !! "Content-Length") as [values|] eqn:Hcl.
    - destruct (last values) as [v|] eqn:Hlast.
      + right.
        rewrite (foldl_copyResponseHeader_last_plain _ _ _ _ values v);
          [|done|apply NoDup_range|by apply canonicalKeys_range
           |by apply elem_of_range|done].
        assert (v = pretty (length body)) as ->.
        { apply (Hlength values); [done|].
          apply last_Some in Hlast as [values' ->].
          apply elem_of_app. right. by left. }
        by rewrite Hne.
      + left. apply last_None in Hlast as ->.
        rewrite foldl_copyResponseHeader_no_value;
          [|apply NoDup_range|by apply canonicalKeys_range
           |by apply elem_of_range].
        apply Writer_Header_afterMiddleware. right. by vm_compute.
    - left. rewrite foldl_copyResponseHeader_lookup_ne.
      + apply Writer_Header_afterMiddleware. right. by vm_compute.
      + intros [key values] Hin. pose proof Hin as Hin'%elem_of_range.
        rewrite (canonicalKeys_range _ _ Hcanon _ Hin). cbn [fst].
        intros ->. by rewrite Hcl in Hin'. }
  unfold HTTP.Get.
  change (MIME.CanonicalMIMEHeaderKey "Content-Length") with "Content-Length".
  destruct Hcopied as [-> | ->]; [done|]. by rewrite Hne.
Qed.

End Relayed.

(** ** The kinds of answer *)

Section Kinds.
Context `{!Unicode, !Environment}.
Import GoStrings.


End Kinds.

(** ** The local endpoints (lines 290-326) *)

Section Local.
Context `{!Environment, !Host}.

Lemma serve_GET handler r :
  Method r = "GET" →
  corsMiddleware handler (Gin.newContext r)
  = handler
      (Gin.Header "Access-Control-Max-Age" "3600"
         (Gin.Header "Access-Control-Allow-Headers" "Content-Type, Authorization"
            (Gin.Header "Access-Control-Allow-Methods"
               "GET, POST, PUT, DELETE, OPTIONS"
               (Gin.Header "Access-Control-Allow-Origin" "*"
                  (Gin.newContext r))))).
Proof.
  intros Hm. unfold corsMiddleware. autorewrite with gin.
  cbn [Gin.newContext Gin.Request]. by rewrite Hm.
Qed.

(** X23: the health check answers 200 without a round trip to the upstream:
    a JSON object with the four fields [status], [service], [time] and
    [binance_url], the last one being the base URL of the proxy; the CORS
    headers of the middleware are on the answer. *)
Theorem X23_health_check_never_contacts_the_upstream p r :
  Method r = "GET" →
  Gin.Dispatched (serveHealth p r) = [] ∧
  Gin.Writer_Status (serveHealth p r) = 200%Z ∧
  (∃ obj : Gin.H,
     Gin.Writer_Body (serveHealth p r) = Gin.JSONObject obj ∧
     dom obj = {["status"; "service"; "time"; "binance_url"]} ∧
     obj !! "status" = Some (Gin.JString "ok") ∧
     obj !! "service" = Some (Gin.JString "binance-proxy") ∧
     obj !! "time" = Some (Gin.JString time_Now) ∧
     obj !! "binance_url" = Some (Gin.JString (binanceURL p))) ∧
  carriesCORS (Gin.Writer_Header (serveHealth p r)) ∧
  Gin.Writer_Header (serveHealth p r) !! "Content-Type"
    = Some ["application/json; charset=utf-8"].
Proof.
  intros Hm. unfold serveHealth. rewrite serve_GET by done.
  split; [done|]. split; [done|]. split; [|done].
  eexists. split; [done|]. split; [|by simplify_map_eq].
  rewrite !dom_insert_L, dom_empty_L. set_solver.
Qed.


(** X25: when the request cannot be built or the round trip fails, the
    connection test answers 503 with a JSON object of two fields, the status
    [error] and a message that names the error; the CORS headers of the
    middleware are on the answer. *)
Theorem X25_connection_test_reports_an_unreachable_upstream p r err :
  Method r = "GET" →
  http_NewRequest "GET" (binanceURL p +:+ "/ping") = Some err ∨
  (http_NewRequest "GET" (binanceURL p +:+ "/ping") = None ∧
   client_Do (getRequest (binanceURL p +:+ "/ping")) = inr err) →
  Gin.Writer_Status (serveTest p r) = 503%Z ∧
  carriesCORS (Gin.Writer_Header (serveTest p r)) ∧
  ∃ obj : Gin.H,
    Gin.Writer_Body (serveTest p r) = Gin.JSONObject obj ∧
    dom obj = {["status"; "message"]} ∧
    obj !! "status" = Some (Gin.JString "error") ∧
    obj !! "message"
      = Some (Gin.JString ("Erro ao conectar com Binance: " +:+ err)).
Proof.
  intros Hm Hfailed. unfold serveTest. rewrite serve_GET by done.
  unfold TestConnection, client_Get.
  destruct Hfailed as [-> | [-> ->]].
  - split; [done|]. split; [done|]. eexists. split; [done|].
    split; [|by simplify_map_eq].
    rewrite !dom_insert_L, dom_empty_L. set_solver.
  - split; [done|]. split; [done|]. eexists. split; [done|].
    split; [|by simplify_map_eq].
    rewrite !dom_insert_L, dom_empty_L. set_solver.
Qed.

End Local.

(** ** The start of the process (lines 409-438) *)

Section Start.
Context `{!Unicode, !Environment, !Host}.
Import GoStrings.

(** X26: [main] never starts without a port or an upstream.  An empty PORT
    or BINANCE_API_URL counts as not set: the address is then [:8080] and
    the proxy is the one of [NewProxyServer]; a value that is not empty is
    used as it is.  Every URL the proxy of [main] requests starts with its
    base URL followed by a slash. *)
Theorem X26_main_falls_back_on_the_defaults :
  (os_Getenv "BINANCE_API_URL" = "" → main.1 = NewProxyServer) ∧
  (os_Getenv "BINANCE_API_URL" ≠ "" →
   binanceURL main.1 = os_Getenv "BINANCE_API_URL") ∧
  binanceURL main.1 ≠ "" ∧
  (os_Getenv "PORT" = "" → Addr main.2 = ":8080") ∧
  (os_Getenv "PORT" ≠ "" → Addr main.2 = ":" +:+ os_Getenv "PORT") ∧
  Addr main.2 ≠ ":" ∧
  ∀ r, HasPrefix (reqURL (upstreamRequest main.1 r))
         (binanceURL main.1 +:+ "/") = true.
Proof.
  split; [|split; [|split; [|split; [|split; [|split]]]]];
    [..|intros r; apply reqURL_starts_with_base];
    unfold main; cbn [fst snd binanceURL Addr].
  - by intros ->.
  - by intros ->%String.eqb_neq.
  - by destruct (String.eqb _ "") eqn:Hurl; [|apply String.eqb_neq].
  - by intros ->.
  - by intros ->%String.eqb_neq.
  - destruct (String.eqb (os_Getenv "PORT") "") eqn:Hport; [done|].
    apply String.eqb_neq in Hport. rewrite append_cons.
    intros [= Hempty]. by destruct (os_Getenv "PORT").
Qed.

End Start.

(** ** The helper [min] (lines 28-33) *)

(** X27: [min] is the greatest lower bound of its two arguments; it is one
    of them, and their order does not matter. *)
Theorem X27_min_is_the_greatest_lower_bound (a b : Z) :
  (min a b ≤ a)%Z ∧ (min a b ≤ b)%Z ∧
  (∀ c, (c ≤ a)%Z → (c ≤ b)%Z → (c ≤ min a b)%Z) ∧
  (min a b = a ∨ min a b = b) ∧
  min a b = min b a.
Proof.
  unfold min. destruct (Z.ltb_spec a b), (Z.ltb_spec b a);
    repeat split; try lia; auto with lia.
Qed.

(** ** The further properties on concrete requests *)

(** The entries of a concrete header map, one by one. *)
Ltac each_entry H :=
  apply elem_of_map_to_list in H; vm_compute in H;
  apply list_elem_of_In in H;
  repeat (destruct H as [H|H]; [inversion H; subst|]); try done.

(** The names of the example request are canonical. *)
Lemma canonicalKeys_signed : canonicalKeys (Header Examples.signed).
Proof. intros k [values Hk]. each_entry Hk. Defined.

(** [GET /api/klines%3Flimit=5...] is sent upstream as
    [GET /api/klines?limit=5...] is. *)
Lemma X1_question_mark_witness :
  Query Examples.klines ≠ ∅ ∧
  @upstreamRequest Double.asciiTables Examples.refusing NewProxyServer
    {| Method := "GET";
       Path := "/api/klines?limit=5&limit=6&symbols=%5B%22BTCUSDT%22%2C%22ETHUSDT%22%5D";
       Query := ∅; Header := Header Examples.klines; Body := [] |}
  = @upstreamRequest Double.asciiTables Examples.refusing NewProxyServer
      Examples.klines.
Proof.
  assert (Query Examples.klines ≠ ∅) as Hquery by apply insert_non_empty.
  exact (conj Hquery
           (@X1_question_mark_in_the_path_opens_the_query Double.asciiTables
              Examples.refusing NewProxyServer Examples.klines Hquery)).
Defined.


(** The query of [klines], normalized twice. *)
Lemma X5_idempotent_witness :
  (∀ l, @json_Marshal Examples.refusing l = JSON.Marshal l) ∧
  @normalizeSymbols Double.asciiTables Examples.refusing
    (@normalizeSymbols Double.asciiTables Examples.refusing
       (Query Examples.klines))
  = @normalizeSymbols Double.asciiTables Examples.refusing
      (Query Examples.klines).
Proof.
  assert (∀ l, @json_Marshal Examples.refusing l = JSON.Marshal l) as Hgo
    by done.
  exact (conj Hgo
           (proj2 (@X5_normalizeSymbols_is_idempotent Double.asciiTables
                     Examples.refusing (Query Examples.klines) Hgo))).
Defined.

(** The two pieces of [BTCUSDT, ETHUSDT ] and what is left of them. *)
Lemma X6_trimmed_pieces_witness :
  forall_bytes belowRuneSelf "BTCUSDT, ETHUSDT " = true ∧
  GoStrings.Split "BTCUSDT, ETHUSDT " "," = ["BTCUSDT"; " ETHUSDT "] ∧
  Forall2 isTrimmed ["BTCUSDT"; " ETHUSDT "] ["BTCUSDT"; "ETHUSDT"].
Proof.
  refine (conj eq_refl (conj eq_refl _)).
  exact (proj2 (proj2 (@X6_symbols_list_is_the_trimmed_pieces
                         Double.asciiTables "BTCUSDT, ETHUSDT " eq_refl))).
Defined.

(** [BTCUSDT, ETHUSDT ] has no byte to escape. *)
Lemma X7_plain_symbols_witness :
  (∀ l, @json_Marshal Examples.refusing l = JSON.Marshal l) ∧
  Query Examples.klines !! "symbols" = Some ["BTCUSDT, ETHUSDT "] ∧
  forall_bytes JSON.htmlSafe "BTCUSDT, ETHUSDT " = true ∧
  @normalizeSymbols Double.asciiTables Examples.refusing (Query Examples.klines)
    !! "symbols"
  = Some ["[" +:+ inQuotes "BTCUSDT" +:+ "," +:+ inQuotes "ETHUSDT" +:+ "]"].
Proof.
  assert (∀ l, @json_Marshal Examples.refusing l = JSON.Marshal l) as Hgo
    by done.
  refine (conj Hgo (conj eq_refl (conj eq_refl _))).
  exact (@X7_plain_symbols_are_quoted_and_joined Double.asciiTables
           Examples.refusing (Query Examples.klines) "BTCUSDT, ETHUSDT " []
           Hgo eq_refl eq_refl eq_refl).
Defined.

(** The two [Accept] lines of the client reach the upstream. *)
Lemma X8_forwarded_headers_witness :
  canonicalKeys (Header Examples.signed) ∧
  Header Examples.signed !! "Accept" = Some ["application/json"; "text/plain"] ∧
  reqHeader
    (@upstreamRequest Double.asciiTables Examples.refusing NewProxyServer
       Examples.signed) !! "Accept"
  = Some ["application/json"; "text/plain"].
Proof.
  refine (conj canonicalKeys_signed (conj eq_refl _)).
  apply (@X8_other_request_headers_are_forwarded Double.asciiTables
           Examples.refusing NewProxyServer Examples.signed "Accept");
    [apply canonicalKeys_signed|reflexivity|done
    |by intros Hin%notForwarded_spec|by vm_compute|done].
Defined.

(** An agent of the client is kept; [klines] has none. *)
Lemma X9_User_Agent_witness :
  canonicalKeys (Header Examples.signed) ∧
  canonicalKeys (Header Examples.klines) ∧
  reqHeader
    (@upstreamRequest Double.asciiTables Examples.refusing NewProxyServer
       Examples.signed) !! "User-Agent" = Some ["curl/8.0"] ∧
  reqHeader
    (@upstreamRequest Double.asciiTables Examples.refusing NewProxyServer
       Examples.klines) !! "User-Agent" = Some ["Binance-Proxy/1.0"].
Proof.
  assert (canonicalKeys (Header Examples.klines)) as Hklines.
  { intros k [values Hk]. each_entry Hk. }
  exact (conj canonicalKeys_signed
           (conj Hklines
              (conj (@X9_User_Agent_is_kept_or_supplied Double.asciiTables
                       Examples.refusing NewProxyServer Examples.signed
                       canonicalKeys_signed)
                    (@X9_User_Agent_is_kept_or_supplied Double.asciiTables
                       Examples.refusing NewProxyServer Examples.klines
                       Hklines)))).
Defined.

(** A name that is none of the five of [setByRelay]. *)
Ltac not_set_by_relay :=
  let Hin := fresh in
  unfold setByRelay; rewrite !elem_of_cons, elem_of_nil;
  intros Hin; by repeat destruct Hin as [Hin|Hin].

(** The names of the example answer are canonical. *)
Lemma canonicalKeys_cookies : canonicalKeys (respHeader Examples.cookies).
Proof. intros k [values Hk]. each_entry Hk. Defined.

(** The API key on the outbound request is the one of the client. *)
Lemma X10_API_key_witness :
  is_Some
    (reqHeader
       (@upstreamRequest Double.asciiTables Examples.refusing NewProxyServer
          Examples.signed) !! "X-Mbx-Apikey") ∧
  ("X-Mbx-Apikey" = "User-Agent" ∨
   ("X-Mbx-Apikey" = "Accept-Encoding" ∧
    ∃ key, is_Some (Header Examples.signed !! key) ∧
           @GoStrings.ToLower Double.asciiTables key = "accept-encoding") ∨
   (∃ key values,
      Header Examples.signed !! key = Some values ∧ values ≠ [] ∧
      MIME.CanonicalMIMEHeaderKey key = "X-Mbx-Apikey" ∧
      @GoStrings.ToLower Double.asciiTables key ∉ notForwarded)).
Proof.
  assert (is_Some
            (reqHeader
               (@upstreamRequest Double.asciiTables Examples.refusing
                  NewProxyServer Examples.signed) !! "X-Mbx-Apikey")) as Hsome.
  { exists ["key"]. by vm_compute. }
  exact (conj Hsome
           (@X10_outbound_headers_come_from_the_inbound_request
              Double.asciiTables Examples.refusing NewProxyServer
              Examples.signed "X-Mbx-Apikey" Hsome)).
Defined.

(** A line feed in the path: the URL is refused, nothing is sent. *)
Lemma X12_rejected_request_witness :
  Method Examples.controlPath ≠ "OPTIONS" ∧
  @http_NewRequest Examples.strict (Method Examples.controlPath)
    (@targetURL Double.asciiTables Examples.strict NewProxyServer
       Examples.controlPath)
  = Some "net/url: invalid control character in URL" ∧
  Gin.Dispatched
    (@serveNoRoute Double.asciiTables Examples.strict NewProxyServer
       Examples.controlPath) = [] ∧
  Gin.Writer_Status
    (@serveNoRoute Double.asciiTables Examples.strict NewProxyServer
       Examples.controlPath) = 500%Z.
Proof.
  assert (Method Examples.controlPath ≠ "OPTIONS") as Hm by done.
  destruct (@X12_rejected_request_is_an_internal_error Double.asciiTables
              Examples.strict NewProxyServer Examples.controlPath
              "net/url: invalid control character in URL" Hm eq_refl)
    as (Hnone & Hstatus & _).
  exact (conj Hm (conj eq_refl (conj Hnone Hstatus))).
Defined.

(** The body breaks off: 500, and the weight header of the upstream is not
    relayed. *)
Lemma X13_unread_body_witness :
  Method Examples.klines ≠ "OPTIONS" ∧
  respBody Examples.truncated = inr "unexpected EOF" ∧
  Gin.Writer_Status
    (Examples.serve (Examples.answering Examples.truncated) Examples.klines)
  = 500%Z ∧
  Gin.Writer_Header
    (Examples.serve (Examples.answering Examples.truncated) Examples.klines)
    !! "X-Mbx-Used-Weight" = None.
Proof.
  assert (Method Examples.klines ≠ "OPTIONS") as Hm by done.
  destruct (@X13_unread_body_is_an_internal_error Double.asciiTables
              (Examples.answering Examples.truncated) NewProxyServer
              Examples.klines Examples.truncated "unexpected EOF"
              Hm eq_refl eq_refl eq_refl) as (_ & Hstatus & _ & Hheader).
  refine (conj Hm (conj eq_refl (conj Hstatus _))).
  unfold Examples.serve. by rewrite Hheader.
Defined.


(** No [Content-Type] from the upstream and a body that is not JSON. *)
Lemma X15_Content_Type_witness :
  @upstreamAnswers Double.asciiTables (Examples.answeringText Examples.cookies)
    NewProxyServer Examples.klines Examples.cookies (Examples.text "pong") ∧
  Gin.Writer_Header
    (Examples.serve (Examples.answeringText Examples.cookies) Examples.klines)
    !! "Content-Type" = Some ["text/plain; charset=utf-8"].
Proof.
  assert (@upstreamAnswers Double.asciiTables
            (Examples.answeringText Examples.cookies) NewProxyServer
            Examples.klines Examples.cookies (Examples.text "pong"))
    as Hanswers by (split; [done|repeat split]).
  exact (conj Hanswers (X15_relayed_Content_Type _ _ _ _ Hanswers)).
Defined.

(** Of two cookies the second is relayed; the empty header is not. *)
Lemma X17_last_cookie_witness :
  @upstreamAnswers Double.asciiTables (Examples.answeringText Examples.cookies)
    NewProxyServer Examples.klines Examples.cookies (Examples.text "pong") ∧
  canonicalKeys (respHeader Examples.cookies) ∧
  respHeader Examples.cookies !! "Set-Cookie" = Some ["a=1"; "b=2"] ∧
  respHeader Examples.cookies !! "X-Trace" = Some [""] ∧
  Gin.Writer_Header
    (Examples.serve (Examples.answeringText Examples.cookies) Examples.klines)
    !! "Set-Cookie" = Some ["b=2"] ∧
  Gin.Writer_Header
    (Examples.serve (Examples.answeringText Examples.cookies) Examples.klines)
    !! "X-Trace" = None.
Proof.
  assert (@upstreamAnswers Double.asciiTables
            (Examples.answeringText Examples.cookies) NewProxyServer
            Examples.klines Examples.cookies (Examples.text "pong"))
    as Hanswers by (split; [done|repeat split]).
  refine (conj Hanswers
            (conj canonicalKeys_cookies (conj eq_refl (conj eq_refl (conj _ _))))).
  - apply (X17_repeated_upstream_header_keeps_its_last_value _ _ _ _
             "Set-Cookie" ["a=1"; "b=2"] "b=2" Hanswers canonicalKeys_cookies);
      [reflexivity|reflexivity|not_set_by_relay|by vm_compute|by vm_compute].
  - apply (X17_repeated_upstream_header_keeps_its_last_value _ _ _ _
             "X-Trace" [""] "" Hanswers canonicalKeys_cookies);
      [reflexivity|reflexivity|not_set_by_relay|by vm_compute|by vm_compute].
Defined.

(** The upstream sends no [Server] header: the answer has none. *)
Lemma X18_no_other_header_witness :
  @upstreamAnswers Double.asciiTables (Examples.answeringText Examples.cookies)
    NewProxyServer Examples.klines Examples.cookies (Examples.text "pong") ∧
  (∀ key, is_Some (respHeader Examples.cookies !! key) →
          MIME.CanonicalMIMEHeaderKey key ≠ "Server") ∧
  ("Server" ∉ setByRelay) ∧
  Gin.Writer_Header
    (Examples.serve (Examples.answeringText Examples.cookies) Examples.klines)
    !! "Server" = None.
Proof.
  assert (@upstreamAnswers Double.asciiTables
            (Examples.answeringText Examples.cookies) NewProxyServer
            Examples.klines Examples.cookies (Examples.text "pong"))
    as Hanswers by (split; [done|repeat split]).
  assert (∀ key, is_Some (respHeader Examples.cookies !! key) →
                 MIME.CanonicalMIMEHeaderKey key ≠ "Server") as Habsent.
  { intros key [values Hkey]. each_entry Hkey. }
  assert ("Server" ∉ setByRelay) as Hset by not_set_by_relay.
  exact (conj Hanswers
           (conj Habsent
              (conj Hset
                 (X18_relay_adds_no_other_header _ _ _ _ "Server"
                    Hanswers Habsent Hset)))).
Defined.

(** The four bytes of [pong] are counted. *)
Lemma X20_Content_Length_witness :
  @upstreamAnswers Double.asciiTables (Examples.answeringText Examples.cookies)
    NewProxyServer Examples.klines Examples.cookies (Examples.text "pong") ∧
  respHeader Examples.cookies !! "Content-Length" = None ∧
  Gin.Writer_Header
    (Examples.serve (Examples.answeringText Examples.cookies) Examples.klines)
    !! "Content-Length" = Some ["4"].
Proof.
  assert (@upstreamAnswers Double.asciiTables
            (Examples.answeringText Examples.cookies) NewProxyServer
            Examples.klines Examples.cookies (Examples.text "pong"))
    as Hanswers by (split; [done|repeat split]).
  assert (∀ key, is_Some (respHeader Examples.cookies !! key) →
                 MIME.CanonicalMIMEHeaderKey key ≠ "Content-Length") as Habsent.
  { intros key [values Hkey]. each_entry Hkey. }
  destruct (X20_relayed_answer_has_a_Content_Length _ _ _ _ Hanswers)
    as [_ Hlength].
  exact (conj Hanswers (conj eq_refl (Hlength Habsent))).
Defined.

(** Eight bytes announced, eight bytes relayed. *)
Lemma X21_counted_bytes_witness :
  @upstreamAnswers Double.asciiTables (Examples.answering Examples.deflateTicker)
    NewProxyServer Examples.klines Examples.deflateTicker
    (Examples.text "deflated") ∧
  canonicalKeys (respHeader Examples.deflateTicker) ∧
  respHeader Examples.deflateTicker !! "Content-Length" = Some ["8"] ∧
  Gin.Writer_Header
    (Examples.serve (Examples.answering Examples.deflateTicker) Examples.klines)
    !! "Content-Length" = Some ["8"].
Proof.
  assert (@upstreamAnswers Double.asciiTables
            (Examples.answering Examples.deflateTicker)
            NewProxyServer Examples.klines Examples.deflateTicker
            (Examples.text "deflated")) as Hanswers by (split; [done|repeat split]).
  assert (canonicalKeys (respHeader Examples.deflateTicker)) as Hcanon.
  { intros k [values Hk]. each_entry Hk. }
  assert (∀ values n,
            respHeader Examples.deflateTicker !! "Content-Length" = Some values →
            n ∈ values → n = pretty (length (Examples.text "deflated")))
    as Hlength.
  { intros values n [= <-] Hn. by apply list_elem_of_singleton in Hn as ->. }
  exact (conj Hanswers
           (conj Hcanon
              (conj eq_refl
                 (X21_Content_Length_counts_the_bytes_sent _ _ _ _
                    Hanswers Hcanon Hlength)))).
Defined.

(** The health check of a proxy started against the test net. *)
Lemma X23_health_check_witness :
  Method Examples.health = "GET" ∧
  Gin.Dispatched (@serveHealth Examples.onTestnet (@main Examples.onTestnet).1
                    Examples.health) = [] ∧
  Gin.Writer_Status (@serveHealth Examples.onTestnet
                       (@main Examples.onTestnet).1 Examples.health) = 200%Z.
Proof.
  destruct (@X23_health_check_never_contacts_the_upstream Examples.onTestnet
              (@main Examples.onTestnet).1 Examples.health eq_refl)
    as (Hnone & Hstatus & _).
  exact (conj eq_refl (conj Hnone Hstatus)).
Defined.


(** The upstream refuses the connection. *)
Lemma X25_unreachable_upstream_witness :
  Method Examples.health = "GET" ∧
  @client_Do Examples.refusing
    (getRequest (binanceURL NewProxyServer +:+ "/ping"))
  = inr "dial tcp 127.0.0.1:443: connect: connection refused" ∧
  Gin.Writer_Status (@serveTest Examples.refusing NewProxyServer Examples.health)
  = 503%Z.
Proof.
  destruct (@X25_connection_test_reports_an_unreachable_upstream
              Examples.refusing NewProxyServer Examples.health
              "dial tcp 127.0.0.1:443: connect: connection refused"
              eq_refl (or_intror (conj eq_refl eq_refl))) as [Hstatus _].
  exact (conj eq_refl (conj eq_refl Hstatus)).
Defined.
